(** * FastEstimator operators and metrics: one-hot encoding, Dice trace,
      sparse categorical crossentropy

    A shallow embedding of
      - [fastestimator/op/numpyop/univariate/onehot.py]   (module [OnehotOp]),
      - [fastestimator/trace/metric/dice.py]               (module [DiceTrace]),
      - [fastestimator/backend/_sparse_categorical_crossentropy.py]
                                                           (module [CrossEntropy]).

    Conventions of the embedding.
      - A Python [int] is a [Z].
      - A finite floating-point value is a rational number, and floating-point
        arithmetic is exact rational arithmetic on [Qc] (the rationals in
        lowest terms, whose equality is Leibniz equality).  Rounding, to
        float32 or float64, is not modelled; the dtype of an array is kept as
        a tag next to its items.
      - A raised exception is the left summand of [result]; statements are
        sequenced with the bind of that error monad.
      - A Python [dict] is a [gmap]. *)

From Stdlib Require Import ZArith QArith Qcanon String Lia Field.
From stdpp Require Import gmap strings list fin_maps numbers.

Local Open Scope Z_scope.

(* ===================================================================== *)
(** * Python exceptions and the error monad *)
(* ===================================================================== *)

Inductive exn : Type :=
| AssertionError (msg : option string)
| ZeroDivisionError
| ValueError
| IndexError
| KeyError (key : string)
| TypeError
| AttributeError.

#[global] Instance exn_eq_dec : EqDecision exn.
Proof. solve_decision. Defined.

Definition result (A : Type) : Type := exn + A.

Definition raise {A : Type} (e : exn) : result A := inl e.

#[global] Instance result_ret : MRet result := λ A a, inr a.

#[global] Instance result_bind : MBind result := λ A B k m,
  match m with
  | inl e => inl e
  | inr a => k a
  end.

#[global] Instance result_fmap : FMap result := λ A B f m,
  match m with
  | inl e => inl e
  | inr a => inr (f a)
  end.

(** [assert cond, msg] *)
Definition py_assert (cond : bool) (msg : option string) : result unit :=
  if cond then mret tt else raise (AssertionError msg).

(** [[f(x) for x in xs]]: the first exception aborts the comprehension. *)
Fixpoint list_comprehension {A B : Type} (f : A → result B) (xs : list A)
  : result (list B) :=
  match xs with
  | [] => inr []
  | x :: xs' => y ← f x; ys ← list_comprehension f xs'; mret (y :: ys)
  end.

Definition is_raise {A : Type} (r : result A) : Prop := ∃ e, r = inl e.

(* ===================================================================== *)
(** * Numbers *)
(* ===================================================================== *)

Definition Z2Qc (z : Z) : Qc := Q2Qc (inject_Z z).

(** [a / b] on a Python float and a Python int: division by zero raises. *)
Definition py_truediv (a : Qc) (b : Z) : result Qc :=
  if b =? 0 then raise ZeroDivisionError else inr (a / Z2Qc b)%Qc.

(** A floating-point value as NumPy, TensorFlow and PyTorch compute with it:
    their division and logarithm do not raise, they return a non-finite
    value. *)
Inductive npfloat : Type :=
| Fin (q : Qc)
| PInf
| NInf
| NaN.

#[global] Instance npfloat_eq_dec : EqDecision npfloat.
Proof. solve_decision. Defined.

Definition is_finite (x : npfloat) : bool :=
  match x with Fin _ => true | _ => false end.

(** The infinity with the sign of [a], for [a] other than zero. *)
Definition inf_of_sign (a : Qc) : npfloat :=
  if bool_decide (0 < a)%Qc then PInf else NInf.

Definition npf_neg (x : npfloat) : npfloat :=
  match x with
  | Fin a => Fin (- a)%Qc
  | PInf => NInf
  | NInf => PInf
  | NaN => NaN
  end.

Definition npf_add (x y : npfloat) : npfloat :=
  match x, y with
  | Fin a, Fin b => Fin (a + b)%Qc
  | NaN, _ | _, NaN => NaN
  | PInf, NInf | NInf, PInf => NaN
  | PInf, _ | _, PInf => PInf
  | NInf, _ | _, NInf => NInf
  end.

Definition npf_mul (x y : npfloat) : npfloat :=
  match x, y with
  | Fin a, Fin b => Fin (a * b)%Qc
  | NaN, _ | _, NaN => NaN
  | Fin a, inf | inf, Fin a =>
      if bool_decide (a = 0%Qc) then NaN
      else if bool_decide (0 < a)%Qc then inf else npf_neg inf
  | PInf, PInf | NInf, NInf => PInf
  | PInf, NInf | NInf, PInf => NInf
  end.

(** Elementwise division of finite values: [0/0] is NaN, [a/0] is the
    infinity with the sign of [a]. *)
Definition np_divide (a b : Qc) : npfloat :=
  if bool_decide (b = 0%Qc) then
    (if bool_decide (a = 0%Qc) then NaN else inf_of_sign a)
  else Fin (a / b)%Qc.

(** Division of a sum by the number of items it was taken over. *)
Definition npf_div_count (x : npfloat) (n : nat) : npfloat :=
  match x with
  | Fin a => np_divide a (Z2Qc (Z.of_nat n))
  | other => other
  end.

(** [np.sum] of a flat sequence of finite items: the empty sum is zero. *)
Definition np_sum (l : list Qc) : Qc := foldr Qcplus 0%Qc l.

(** The sum of a flat sequence of floating-point values. *)
Definition npf_sum (l : list npfloat) : npfloat := foldr npf_add (Fin 0%Qc) l.

(** [np.mean], [tf.reduce_mean], [torch.mean] of a flat sequence: the sum
    over the number of items; of an empty sequence it is [0/0]. *)
Definition np_mean (l : list npfloat) : npfloat :=
  npf_div_count (npf_sum l) (length l).

(* ===================================================================== *)
(** * NumPy dtypes and arrays *)
(* ===================================================================== *)

Inductive int_dtype : Type :=
| int8 | int16 | int32 | int64 | uint8 | uint16 | uint32 | uint64.

Inductive other_dtype : Type :=
| float16 | float32 | float64 | bool_ | object_.

Inductive dtype : Type :=
| IntT (d : int_dtype)
| OtherT (d : other_dtype).

#[global] Instance int_dtype_eq_dec : EqDecision int_dtype.
Proof. solve_decision. Defined.
#[global] Instance other_dtype_eq_dec : EqDecision other_dtype.
Proof. solve_decision. Defined.
#[global] Instance dtype_eq_dec : EqDecision dtype.
Proof. solve_decision. Defined.

(** [str(dtype)] *)
Definition dtype_str (d : dtype) : string :=
  match d with
  | IntT int8 => "int8"
  | IntT int16 => "int16"
  | IntT int32 => "int32"
  | IntT int64 => "int64"
  | IntT uint8 => "uint8"
  | IntT uint16 => "uint16"
  | IntT uint32 => "uint32"
  | IntT uint64 => "uint64"
  | OtherT float16 => "float16"
  | OtherT float32 => "float32"
  | OtherT float64 => "float64"
  | OtherT bool_ => "bool"
  | OtherT object_ => "object"
  end.

(** [sub in s] on Python strings. *)
Definition str_in (sub s : string) : bool :=
  match String.index 0 sub s with
  | Some _ => true
  | None => false
  end.

(** A flat array of floating-point items with its dtype tag. *)
Record ndarray : Type := NdArray {
  nd_dtype : dtype;
  nd_data : list Qc
}.

#[global] Instance ndarray_eq_dec : EqDecision ndarray.
Proof. solve_decision. Defined.

(** [np.full((n), fill_value, dtype)]: a negative length raises. *)
Definition np_full (n : Z) (fill_value : Qc) (dt : dtype) : result ndarray :=
  if n <? 0 then raise ValueError
  else inr (NdArray dt (replicate (Z.to_nat n) fill_value)).

(** The position an integer index [i] selects in a sequence of [len] items:
    an index in [[-len, 0)] counts from the end, an index outside
    [[-len, len)] raises. *)
Definition normalize_index (len i : Z) : result nat :=
  if (0 <=? i) && (i <? len) then mret (Z.to_nat i)
  else if (- len <=? i) && (i <? 0) then mret (Z.to_nat (len + i))
  else raise IndexError.

(** [a[i] = v] with an integer index; the dtype is kept. *)
Definition nd_setitem (a : ndarray) (i : Z) (v : Qc) : result ndarray :=
  pos ← normalize_index (Z.of_nat (length (nd_data a))) i;
  mret (NdArray (nd_dtype a) (<[pos := v]> (nd_data a))).

(** The arrays a label can arrive in.  An integer array carries its flattened
    items.  An array of any other dtype carries its dtype and size only:
    [Onehot] rejects it on the dtype before it reads an item. *)
Inductive label_array : Type :=
| IntArray (d : int_dtype) (flat : list Z)
| OtherArray (d : other_dtype) (size : nat).

Definition la_dtype (a : label_array) : dtype :=
  match a with
  | IntArray d _ => IntT d
  | OtherArray d _ => OtherT d
  end.

Definition la_size (a : label_array) : nat :=
  match a with
  | IntArray _ flat => length flat
  | OtherArray _ size => size
  end.

(** [a.item()]: the one item of a size-one array as a Python scalar.  Only
    integer arrays reach it in [Onehot]; then the scalar is a Python int. *)
Definition la_item (a : label_array) : result Z :=
  match a with
  | IntArray _ [z] => inr z
  | IntArray _ _ => raise ValueError
  | OtherArray _ _ => raise TypeError
  end.

(** What [Onehot] is given for one label: [Union[int, np.ndarray]]. *)
Inductive label_data : Type :=
| PyInt (z : Z)
| PyArray (a : label_array).

(** [np.array(data)]: a Python int becomes a zero-dimensional array, int64
    when it fits, uint64 when it fits that instead, an object array
    otherwise; an array is copied. *)
Definition np_array (data : label_data) : label_array :=
  match data with
  | PyInt z =>
      if (- 2 ^ 63 <=? z) && (z <? 2 ^ 63) then IntArray int64 [z]
      else if (2 ^ 63 <=? z) && (z <? 2 ^ 64) then IntArray uint64 [z]
      else OtherArray object_ 1
  | PyArray a => a
  end.

(* ===================================================================== *)
(** * onehot.py *)
(* ===================================================================== *)

Module OnehotOp.

(** The fields of an [Onehot] instance that [forward] reads. *)
Record Onehot : Type := mkOnehot {
  num_classes : Z;
  label_smoothing : Qc
}.

Definition size_msg : string := "data must have only one item".
Definition range_msg : string := "label value should be smaller than num_classes".

Definition _apply_onehot (self : Onehot) (data : label_data) : result ndarray :=
  let class_index := np_array data in
  py_assert (str_in "int" (dtype_str (la_dtype class_index))) None;;
  py_assert (Nat.eqb (la_size class_index) 1) (Some size_msg);;
  class_index ← la_item class_index;
  py_assert (class_index <? num_classes self) (Some range_msg);;
  fill_value ← py_truediv (label_smoothing self) (num_classes self);
  output ← np_full (num_classes self) fill_value (OtherT float32);
  smooth ← py_truediv (label_smoothing self) (num_classes self);
  output ← nd_setitem output class_index
             (1 - label_smoothing self + smooth)%Qc;
  mret output.

Definition forward (self : Onehot) (data : list label_data)
  : result (list ndarray) :=
  list_comprehension (_apply_onehot self) data.

End OnehotOp.

(* ===================================================================== *)
(** * dice.py *)
(* ===================================================================== *)

Module DiceTrace.

(** A batch of masks, shape (Batch, ..., Channel): for each sample and each
    channel the flattened items of that channel, with the dtype tag. *)
Record tensor : Type := Tensor {
  t_dtype : dtype;
  t_data : list (list (list Qc))
}.

#[global] Instance tensor_eq_dec : EqDecision tensor.
Proof. solve_decision. Defined.

(** The item of sample [i], channel [c], position [j]. *)
Definition tensor_at (a : tensor) (i c j : nat) : option Qc :=
  sample ← t_data a !! i; channel ← sample !! c; channel !! j.

(** A mask all of whose items are 0 or 1. *)
Definition binary_mask (a : tensor) : Prop :=
  Forall (Forall (Forall (λ v : Qc, v = 0%Qc ∨ v = 1%Qc))) (t_data a).

#[global] Instance binary_mask_dec (a : tensor) : Decision (binary_mask a).
Proof. unfold binary_mask. apply _. Defined.

(** [np.where(a > threshold, x, y)]: elementwise, a float64 array. *)
Definition np_where_gt (a : tensor) (threshold x y : Qc) : tensor :=
  Tensor (OtherT float64)
    (map (map (map (λ v, if bool_decide (threshold < v)%Qc then x else y)))
         (t_data a)).

(** [a.astype(dt)].  The only items cast in this file are 0.0 and 1.0, which
    every dtype holds exactly, so the items are kept. *)
Definition astype (a : tensor) (dt : dtype) : tensor := Tensor dt (t_data a).

(** Modelled from the spec: [fastestimator.util.Data], the batch dictionary
    that also collects what a trace writes, "an external key-value log
    collector keyed by a string output name": the tensors of the batch, the
    scalar values written with [write_with_log] and the per-instance values
    written with [write_per_instance_log]. *)
Record Data : Type := mkData {
  batch : gmap string tensor;
  logs : gmap string npfloat;
  per_instance_logs : gmap string (list npfloat)
}.

#[global] Instance Data_eq_dec : EqDecision Data.
Proof. solve_decision. Defined.

(** [data[key]] *)
Definition data_getitem (data : Data) (key : string) : result tensor :=
  match batch data !! key with
  | Some t => mret t
  | None => raise (KeyError key)
  end.

Definition write_with_log (data : Data) (key : string) (value : npfloat) : Data :=
  mkData (batch data) (<[key := value]> (logs data)) (per_instance_logs data).

Definition write_per_instance_log (data : Data) (key : string)
    (value : list npfloat) : Data :=
  mkData (batch data) (logs data) (<[key := value]> (per_instance_logs data)).

(** [seq[i]] on a Python list or tuple, for an index that is not negative. *)
Definition py_index {A : Type} (l : list A) (i : nat) : result A :=
  match l !! i with
  | Some x => mret x
  | None => raise IndexError
  end.

(** Modelled from the spec: [fastestimator.backend._dice_score.dice_score],
    "(2 * sum(pred ∧ true) + epsilon) / (sum(pred) + sum(true) + epsilon)"
    "per sample (and optionally per channel, then averaged across channels if
    channel_average is true)".  On masks the conjunction is the elementwise
    product. *)
Definition mask_and (pred truth : list Qc) : list Qc :=
  zip_with Qcmult pred truth.

Definition dice_formula (pred truth : list Qc) (epsilon : Qc) : npfloat :=
  np_divide (2 * np_sum (mask_and pred truth) + epsilon)%Qc
            (np_sum pred + np_sum truth + epsilon)%Qc.

Definition sample_dice (channel_average : bool) (epsilon : Qc)
    (pred truth : list (list Qc)) : npfloat :=
  if channel_average then
    np_mean (zip_with (λ p t, dice_formula p t epsilon) pred truth)
  else dice_formula (concat pred) (concat truth) epsilon.

Definition dice_score (y_pred y_true : tensor) (channel_average : bool)
    (epsilon : Qc) : list npfloat :=
  zip_with (sample_dice channel_average epsilon) (t_data y_pred) (t_data y_true).

(** The attributes of a [Dice] trace.  [inputs] and [outputs] are the lists
    the [Trace] base class keeps.  The class is modelled as it is written;
    the [per_ds] decorator, which runs further copies of it per dataset id,
    and the mode and dataset filters of [Trace] are outside this model. *)
Record Dice : Type := mkDice {
  inputs : list string;
  outputs : list string;
  threshold : Qc;
  smooth : Qc;
  channel_average : bool;
  dice : list npfloat;
  per_ds : bool
}.

#[global] Instance Dice_eq_dec : EqDecision Dice.
Proof. solve_decision. Defined.

Definition set_dice (self : Dice) (d : list npfloat) : Dice :=
  mkDice (inputs self) (outputs self) (threshold self) (smooth self)
         (channel_average self) d (per_ds self).

(** 1e-8 *)
Definition smooth_default : Qc := Q2Qc (1 # 100000000).

(** [Dice.__init__]: [Trace.__init__] stores [inputs=(true_key, pred_key)] and
    [outputs=output_name] as lists. *)
Definition __init__ (true_key pred_key : string) (threshold : Qc)
    (channel_average : bool) (output_name : string) (per_ds : bool) : Dice :=
  mkDice [true_key; pred_key] [output_name] threshold smooth_default
         channel_average [] per_ds.

Definition true_key (self : Dice) : result string := py_index (inputs self) 0.
Definition pred_key (self : Dice) : result string := py_index (inputs self) 1.

Definition on_epoch_begin (self : Dice) (data : Data) : Dice :=
  set_dice self [].

(** The binarised prediction of [on_batch_end]. *)
Definition binarize (self : Dice) (y_pred : tensor) : tensor :=
  astype (np_where_gt y_pred (threshold self) 1 0) (t_dtype y_pred).

(** [to_number] turns a backend tensor into a NumPy array with the same
    items: the identity on [tensor]. *)
Definition to_number (t : tensor) : tensor := t.

Definition on_batch_end (self : Dice) (data : Data) : result (Dice * Data) :=
  k_true ← true_key self;
  y_true ← data_getitem data k_true;
  let y_true := to_number y_true in
  k_pred ← pred_key self;
  y_pred ← data_getitem data k_pred;
  let y_pred := to_number y_pred in
  let y_pred := binarize self y_pred in
  let dice_ := dice_score y_pred y_true (channel_average self) (smooth self) in
  out ← py_index (outputs self) 0;
  let data := write_per_instance_log data out dice_ in
  mret (set_dice self (dice self ++ dice_), data).

Definition on_epoch_end (self : Dice) (data : Data) : result Data :=
  out ← py_index (outputs self) 0;
  mret (write_with_log data out (np_mean (dice self))).

(** Modelled from the spec: the loop that drives the trace, "the sequential
    callback sequence epoch_begin → batch_end* → epoch_end driven by an
    external training/evaluation loop".  Each callback is given the [Data] of
    its own batch or epoch. *)
Fixpoint run_batches (self : Dice) (batches : list Data)
  : result (Dice * list Data) :=
  match batches with
  | [] => mret (self, [])
  | b :: bs =>
      '(self, b') ← on_batch_end self b;
      '(self, bs') ← run_batches self bs;
      mret (self, b' :: bs')
  end.

Definition run_epoch (self : Dice) (begin_data : Data) (batches : list Data)
    (end_data : Data) : result (Dice * list Data * Data) :=
  let self := on_epoch_begin self begin_data in
  '(self, batches') ← run_batches self batches;
  end_data' ← on_epoch_end self end_data;
  mret (self, batches', end_data').

End DiceTrace.

(** The fixture of [test_dice.py]: [x] and [x_pred] of shape (1, 3, 3, 3),
    given here channel by channel (the last axis), each channel flattened. *)
Module TestDice.
Import DiceTrace.

Definition x : tensor :=
  Tensor (OtherT float32)
    [[ [0; 1; 1; 0; 1; 1; 0; 1; 1];
       [1; 0; 0; 0; 1; 0; 1; 0; 0];
       [1; 1; 1; 1; 1; 1; 1; 1; 1] ]]%Qc.

Definition x_pred : tensor :=
  Tensor (OtherT float32)
    [[ [0; 1; 1; 1; 1; 0; 0; 1; 1];
       [1; 0; 0; 0; 0; 1; 0; 0; 0];
       [0; 0; 1; 1; 1; 0; 1; 1; 1] ]]%Qc.

Definition data : Data :=
  mkData (<["x" := x]> (<["x_pred" := x_pred]> ∅)) ∅ ∅.

(** [Dice(true_key='x', pred_key='x_pred')] with the defaults of the
    constructor. *)
Definition dice : Dice := __init__ "x" "x_pred" (Q2Qc (1 # 2)) false "Dice" true.

End TestDice.

(* ===================================================================== *)
(** * _sparse_categorical_crossentropy.py *)
(* ===================================================================== *)

Module CrossEntropy.

(** An argument as the function receives it: a TensorFlow tensor, a PyTorch
    tensor, or an object that is neither. *)
Inductive pyarg (A : Type) : Type :=
| TfTensor (v : A)
| TorchTensor (v : A)
| NotTensor.
Arguments TfTensor {A} v.
Arguments TorchTensor {A} v.
Arguments NotTensor {A}.

(** [isinstance(x, (tf.Tensor, torch.Tensor))] *)
Definition isinstance_tensor {A : Type} (x : pyarg A) : bool :=
  match x with NotTensor => false | _ => true end.

(** [Weight_Dict]: a [tf.lookup.StaticHashTable], which is built with the
    value it returns for a key it does not hold, or a Python dict. *)
Inductive Weight_Dict : Type :=
| StaticHashTable (key_dtype : int_dtype) (table : gmap Z Qc) (default_value : Qc)
| PyDict (d : gmap Z Qc).

(** The loss that is returned: a scalar, or a tensor of shape (Batch). *)
Inductive loss : Type :=
| Scalar (x : npfloat)
| PerSample (l : list npfloat).

#[global] Instance loss_eq_dec : EqDecision loss.
Proof. solve_decision. Defined.

Definition msg_pred : string := "only support tf.Tensor or torch.Tensor as y_pred".
Definition msg_true : string := "only support tf.Tensor or torch.Tensor as y_true".

(** Modelled from the spec: [fastestimator.backend._reduce_mean.reduce_mean],
    the "generic reduction helper (mean)": "the scalar arithmetic mean over
    the batch". *)
Definition reduce_mean (ce : list npfloat) : npfloat := np_mean ce.

(** The number of bits of an integer dtype and whether it is signed. *)
Definition int_bits (d : int_dtype) : Z :=
  match d with
  | int8 | uint8 => 8
  | int16 | uint16 => 16
  | int32 | uint32 => 32
  | int64 | uint64 => 64
  end.

Definition int_signed (d : int_dtype) : bool :=
  match d with
  | int8 | int16 | int32 | int64 => true
  | _ => false
  end.

(** The least value of an integer dtype. *)
Definition int_min (d : int_dtype) : Z :=
  if int_signed d then - 2 ^ (int_bits d - 1) else 0.

(** [tf.cast(x, dtype)] of an integer to an integer dtype: the value is
    kept when the dtype holds it and wraps around otherwise. *)
Definition tf_cast (d : int_dtype) (z : Z) : Z :=
  (z - int_min d) mod 2 ^ int_bits d + int_min d.

(** [table.lookup(keys)]: the value of each key, the table's default value
    for a key it does not hold. *)
Definition table_lookup (table : gmap Z Qc) (default_value : Qc)
    (keys : list Z) : list Qc :=
  map (λ k, default default_value (table !! k)) keys.

(** [sample_weights[y_true == key] = w] *)
Definition masked_assign (sample_weights : list Qc) (y_true : list Z)
    (key : Z) (w : Qc) : list Qc :=
  zip_with (λ y sw, if bool_decide (y = key) then w else sw)
           y_true sample_weights.

(** [d.keys()] *)
Definition dict_keys (d : gmap Z Qc) : list Z := (map_to_list d).*1.

(** [d[key]] for a key taken from [d.keys()]. *)
Definition dict_getitem (d : gmap Z Qc) (key : Z) : Qc := default 0%Qc (d !! key).

(** The body of the [for key in class_weights.keys()] loop, run over the
    keys in the order the dict yields them. *)
Definition weights_loop (d : gmap Z Qc) (y_true : list Z)
    (keys : list Z) (sample_weights : list Qc) : list Qc :=
  foldl (λ sw key, masked_assign sw y_true key (dict_getitem d key))
        sample_weights keys.

(** [ce * sample_weights] *)
Definition scale (ce : list npfloat) (sample_weights : list Qc) : list npfloat :=
  zip_with (λ c w, npf_mul c (Fin w)) ce sample_weights.

Section Backends.

(** The loss primitives of the two libraries and [torch.log], each on one
    sample: [reduction="none"] and the TensorFlow function return one loss
    per sample, computed from that sample's row of [y_pred] and its label. *)
Variable tf_losses_sparse_categorical_crossentropy :
  bool → list Qc → Z → result npfloat.
Variable torch_CrossEntropyLoss : list Qc → Z → result npfloat.
Variable torch_NLLLoss : list npfloat → Z → result npfloat.
Variable torch_log : Qc → npfloat.

(** A loss primitive on a batch: one row and one label per sample. *)
Definition on_batch {R : Type} (f : R → Z → result npfloat)
    (rows : list R) (labels : list Z) : result (list npfloat) :=
  if Nat.eqb (length rows) (length labels)
  then list_comprehension (λ rl, f rl.1 rl.2) (zip rows labels)
  else raise ValueError.

Definition sparse_categorical_crossentropy
    (y_pred : pyarg (list (list Qc))) (y_true : pyarg (list Z))
    (from_logits : bool) (average_loss : bool)
    (class_weights : option Weight_Dict) : result loss :=
  py_assert (isinstance_tensor y_pred) (Some msg_pred);;
  py_assert (isinstance_tensor y_true) (Some msg_true);;
  ce ←
    match y_pred with
    | TfTensor pred =>
        (* if tf.is_tensor(y_pred): the TensorFlow path, which does not take
           a PyTorch tensor for y_true *)
        labels ← match y_true with
                 | TfTensor t => mret t
                 | _ => raise TypeError
                 end;
        ce ← on_batch (tf_losses_sparse_categorical_crossentropy from_logits)
                      pred labels;
        match class_weights with
        | None => mret ce
        | Some (StaticHashTable key_dtype table default_value) =>
            (* y_true reshaped to the shape of ce and cast to the key dtype *)
            let sample_weights :=
              table_lookup table default_value (map (tf_cast key_dtype) labels) in
            mret (scale ce sample_weights)
        | Some (PyDict _) => raise AttributeError
        end
    | TorchTensor pred =>
        (* else: the PyTorch path; y_true.view(-1) is a method of PyTorch
           tensors only *)
        y_true ← match y_true with
                 | TorchTensor t => mret t
                 | _ => raise AttributeError
                 end;
        ce ← (if from_logits
              then on_batch torch_CrossEntropyLoss pred y_true
              else on_batch torch_NLLLoss (map (map torch_log) pred) y_true);
        match class_weights with
        | None => mret ce
        | Some (PyDict d) =>
            let sample_weights := replicate (length y_true) 1%Qc in
            let sample_weights :=
              weights_loop d y_true (dict_keys d) sample_weights in
            mret (scale ce sample_weights)
        | Some (StaticHashTable _ _ _) => raise AttributeError
        end
    | NotTensor =>
        (* not reached: the first assertion has raised *)
        raise (AssertionError (Some msg_pred))
    end;
  mret (if average_loss then Scalar (reduce_mean ce) else PerSample ce).

End Backends.

End CrossEntropy.

(** The example of the docstring of [sparse_categorical_crossentropy], with
    stand-ins for the library primitives that are right on that example: the
    negative logarithm at the three probabilities the example reads, to the
    two decimals the docstring prints its results with. *)
Module DocExample.
Import CrossEntropy.

Definition neg_log (p : Qc) : npfloat :=
  if bool_decide (p = Q2Qc (8 # 10)) then Fin (Q2Qc (22 # 100))
  else if bool_decide (p = Q2Qc (9 # 10)) then Fin (Q2Qc (11 # 100))
  else if bool_decide (p = Q2Qc (7 # 10)) then Fin (Q2Qc (36 # 100))
  else NaN.

Definition pick {A : Type} (row : list A) (label : Z) : result A :=
  match row !! Z.to_nat label with
  | Some x => mret x
  | None => raise IndexError
  end.

Definition tf_loss (from_logits : bool) (row : list Qc) (label : Z)
  : result npfloat := neg_log <$> pick row label.
Definition torch_ce (row : list Qc) (label : Z) : result npfloat :=
  neg_log <$> pick row label.
Definition torch_log (p : Qc) : npfloat := npf_neg (neg_log p).
Definition torch_nll (row : list npfloat) (label : Z) : result npfloat :=
  npf_neg <$> pick row label.

Definition scce :=
  sparse_categorical_crossentropy tf_loss torch_ce torch_nll torch_log.

Definition y_true : list Z := [1; 0; 2].
Definition y_pred : list (list Qc) :=
  [[Q2Qc (1 # 10); Q2Qc (8 # 10); Q2Qc (1 # 10)];
   [Q2Qc (9 # 10); Q2Qc (5 # 100); Q2Qc (5 # 100)];
   [Q2Qc (1 # 10); Q2Qc (2 # 10); Q2Qc (7 # 10)]].

(** [{1: 2.0, 2: 3.0}] *)
Definition weights : gmap Z Qc := <[1 := Q2Qc 2]> (<[2 := Q2Qc 3]> ∅).

End DocExample.

(* ===================================================================== *)
(** * Properties: numbers *)
(* ===================================================================== *)

(** One step of the error monad. *)
Ltac run := cbn [mbind mret result_bind result_ret raise py_assert].

(** A closed equation between values with decidable equality, by
    evaluation. *)
Ltac by_eval :=
  match goal with |- ?P => apply (bool_decide_unpack P) end; vm_compute; exact I.

Lemma Z2Qc_add a b : Z2Qc (a + b) = (Z2Qc a + Z2Qc b)%Qc.
Proof.
  apply Qc_is_canon. unfold Z2Qc, Qcplus, Q2Qc. cbn [this].
  rewrite !Qred_correct. rewrite inject_Z_plus. reflexivity.
Qed.

Lemma Z2Qc_eq_0 a : Z2Qc a = 0%Qc → a = 0.
Proof.
  intros H. apply (f_equal this) in H. unfold Z2Qc, Q2Qc in H. cbn [this] in H.
  assert (Hq : (inject_Z a == 0)%Q).
  { rewrite <- (Qred_correct (inject_Z a)). rewrite H. reflexivity. }
  unfold Qeq, inject_Z in Hq. simpl in Hq. lia.
Qed.

Lemma Z2Qc_neq_0 a : a ≠ 0 → Z2Qc a ≠ 0%Qc.
Proof. intros Ha H. apply Ha, Z2Qc_eq_0, H. Qed.

Lemma np_sum_cons x (l : list Qc) : np_sum (x :: l) = (x + np_sum l)%Qc.
Proof. reflexivity. Qed.

Lemma np_sum_replicate n (f : Qc) :
  np_sum (replicate n f) = (Z2Qc (Z.of_nat n) * f)%Qc.
Proof.
  induction n as [|n IH].
  - change (Z2Qc (Z.of_nat 0)) with 0%Qc. simpl. ring.
  - rewrite Nat2Z.inj_succ, <- Z.add_1_r, Z2Qc_add.
    cbn [replicate]. rewrite np_sum_cons, IH.
    change (Z2Qc 1) with 1%Qc. ring.
Qed.

Lemma np_sum_insert (l : list Qc) i v x :
  l !! i = Some x → np_sum (<[i := v]> l) = (np_sum l - x + v)%Qc.
Proof.
  revert i. induction l as [|y l IH]; intros [|i] H; simplify_eq/=.
  - fold (np_sum l). ring.
  - fold (np_sum (<[i:=v]> l)). fold (np_sum l). rewrite (IH _ H). ring.
Qed.

Lemma npf_sum_Fin (l : list Qc) : npf_sum (Fin <$> l) = Fin (np_sum l).
Proof.
  induction l as [|x l IH]; [reflexivity|].
  cbn [fmap list_fmap npf_sum foldr]. fold (npf_sum (Fin <$> l)).
  rewrite IH. reflexivity.
Qed.

Lemma np_divide_ne (a b : Qc) : b ≠ 0%Qc → np_divide a b = Fin (a / b)%Qc.
Proof. intros Hb. unfold np_divide. by rewrite bool_decide_eq_false_2. Qed.

Lemma np_mean_empty : np_mean [] = NaN.
Proof. by_eval. Qed.

Lemma np_mean_Fin (l : list Qc) :
  l ≠ [] →
  np_mean (Fin <$> l) = Fin (np_sum l / Z2Qc (Z.of_nat (length l)))%Qc.
Proof.
  intros Hl. unfold np_mean. rewrite npf_sum_Fin, length_fmap.
  cbn [npf_div_count]. apply np_divide_ne, Z2Qc_neq_0.
  destruct l; [done | cbn [length]; lia].
Qed.

Lemma npf_mul_1_r (x : npfloat) : npf_mul x (Fin 1%Qc) = x.
Proof.
  destruct x as [a| | |]; cbn [npf_mul]; [f_equal; ring|..]; by_eval.
Qed.

(* ===================================================================== *)
(** * Properties of onehot.py *)
(* ===================================================================== *)

Module OnehotProps.
Import OnehotOp.

(** Every integer dtype passes, and every other dtype fails, the test
    ["int" in str(class_index.dtype)]. *)
Lemma int_dtype_passes d : str_in "int" (dtype_str (IntT d)) = true.
Proof. destruct d; reflexivity. Qed.

Lemma other_dtype_fails d : str_in "int" (dtype_str (OtherT d)) = false.
Proof. destruct d; reflexivity. Qed.

(** The position a label that passed the checks is written to, the value
    the vector is filled with and the value written at the label. *)
Local Abbreviation hot_slot self label :=
  (Z.to_nat (if 0 <=? label then label else num_classes self + label)).
Local Abbreviation fill self :=
  (label_smoothing self / Z2Qc (num_classes self))%Qc.
Local Abbreviation hot self :=
  (1 - label_smoothing self + label_smoothing self / Z2Qc (num_classes self))%Qc.

(** What [_apply_onehot] does with one integer label, case by case. *)
Lemma apply_onehot_label (self : Onehot) (data : label_data) d label :
  np_array data = IntArray d [label] →
  _apply_onehot self data =
    if num_classes self <=? label then inl (AssertionError (Some range_msg))
    else if num_classes self =? 0 then inl ZeroDivisionError
    else if num_classes self <? 0 then inl ValueError
    else if label <? - num_classes self then inl IndexError
    else inr (NdArray (OtherT float32)
                (<[hot_slot self label := hot self]>
                   (replicate (Z.to_nat (num_classes self)) (fill self)))).
Proof.
  intros Hd. unfold _apply_onehot. rewrite Hd. cbn [la_dtype la_size la_item].
  rewrite int_dtype_passes. cbn [length Nat.eqb]. run.
  destruct (Z.ltb_spec label (num_classes self)) as [Hlt|Hge];
    destruct (Z.leb_spec (num_classes self) label) as [Hle|Hgt]; try lia;
    run; [|reflexivity].
  unfold py_truediv.
  destruct (Z.eqb_spec (num_classes self) 0) as [H0|H0]; [reflexivity|].
  run. unfold np_full.
  destruct (Z.ltb_spec (num_classes self) 0) as [Hn|Hn]; [reflexivity|].
  run. unfold nd_setitem, normalize_index. cbn [nd_data nd_dtype].
  rewrite length_replicate, Z2Nat.id by lia.
  destruct (Z.leb_spec 0 label) as [Hl|Hl].
  - destruct (Z.ltb_spec label (- num_classes self)); [lia|].
    destruct (Z.ltb_spec label (num_classes self)); [|lia]. reflexivity.
  - cbn [andb].
    destruct (Z.leb_spec (- num_classes self) label) as [Hm|Hm];
      destruct (Z.ltb_spec label (- num_classes self)) as [Hm'|Hm']; try lia.
    + destruct (Z.ltb_spec label 0); [|lia]. reflexivity.
    + reflexivity.
Qed.

(** An input that is not one integer label is rejected by one of the first
    two assertions. *)
Lemma apply_onehot_not_label (self : Onehot) (data : label_data) :
  (∀ d label, np_array data ≠ IntArray d [label]) →
  ∃ msg, _apply_onehot self data = inl (AssertionError msg).
Proof.
  intros Hn. unfold _apply_onehot.
  destruct (np_array data) as [d flat|d size] eqn:Hd.
  - cbn [la_dtype la_size]. rewrite int_dtype_passes. run.
    destruct flat as [|z [|z' flat]].
    + eexists. reflexivity.
    + exfalso. eapply Hn. reflexivity.
    + eexists. reflexivity.
  - cbn [la_dtype]. rewrite other_dtype_fails. eexists. reflexivity.
Qed.

(** The accepted inputs and the vector returned for each. *)
Lemma apply_onehot_inr (self : Onehot) (data : label_data) (out : ndarray) :
  _apply_onehot self data = inr out ↔
  ∃ d label, np_array data = IntArray d [label] ∧
    0 < num_classes self ∧ - num_classes self ≤ label < num_classes self ∧
    out = NdArray (OtherT float32)
            (<[hot_slot self label := hot self]>
               (replicate (Z.to_nat (num_classes self)) (fill self))).
Proof.
  split.
  - intros H.
    destruct (np_array data) as [d [|label [|z flat]]|d size] eqn:Hd.
    1,3,4: destruct (apply_onehot_not_label self data) as [msg Hm];
      [intros d' l'; rewrite Hd; discriminate | congruence].
    rewrite (apply_onehot_label self data d label Hd) in H.
    exists d, label. split; [reflexivity|].
    destruct (Z.leb_spec (num_classes self) label); [discriminate|].
    destruct (Z.eqb_spec (num_classes self) 0); [discriminate|].
    destruct (Z.ltb_spec (num_classes self) 0); [discriminate|].
    destruct (Z.ltb_spec label (- num_classes self)); [discriminate|].
    repeat split; try lia. congruence.
  - intros (d & label & Hd & Hn & Hl & ->).
    rewrite (apply_onehot_label self data d label Hd).
    destruct (Z.leb_spec (num_classes self) label); [lia|].
    destruct (Z.eqb_spec (num_classes self) 0); [lia|].
    destruct (Z.ltb_spec (num_classes self) 0); [lia|].
    destruct (Z.ltb_spec label (- num_classes self)); [lia|].
    reflexivity.
Qed.

(** A Python int that NumPy stores as int64 or uint64 is one integer label. *)
Lemma np_array_PyInt z :
  - 2 ^ 63 ≤ z < 2 ^ 64 → ∃ d, np_array (PyInt z) = IntArray d [z].
Proof.
  intros Hz. unfold np_array.
  destruct (Z.leb_spec (- 2 ^ 63) z); [|lia]. cbn [andb].
  destruct (Z.ltb_spec z (2 ^ 63)); [by eexists|].
  destruct (Z.leb_spec (2 ^ 63) z); [|lia].
  destruct (Z.ltb_spec z (2 ^ 64)); [|lia]. by eexists.
Qed.

(** C1, as the code has it.  For an input that is one integer label,
    [_apply_onehot] raises the assertion "label value should be smaller than
    num_classes" exactly when [label >= num_classes]; there is no check
    against a negative label.  With [num_classes > 0] the encoding fails
    exactly when [label >= num_classes] or [label < - num_classes]: a label in
    [[-num_classes, 0)] is accepted and counts from the end.  In particular
    encoding the label [num_classes] itself fails for every [num_classes] and
    every smoothing, whether it is given as a Python int or in an integer
    array. *)
Theorem range_check :
  (∀ (self : Onehot) (data : label_data) d label,
     np_array data = IntArray d [label] →
     (_apply_onehot self data = inl (AssertionError (Some range_msg))
        ↔ num_classes self ≤ label) ∧
     (0 < num_classes self →
        (is_raise (_apply_onehot self data)
           ↔ num_classes self ≤ label ∨ label < - num_classes self))) ∧
  (∀ (self : Onehot) (data : label_data) d label,
     np_array data = IntArray d [label] →
     - num_classes self ≤ label < 0 →
     ∃ out, _apply_onehot self data = inr out ∧
       nd_data out !! Z.to_nat (num_classes self + label) = Some (hot self)) ∧
  (∀ n s, is_raise (_apply_onehot (mkOnehot n s) (PyInt n))) ∧
  (∀ n s d, _apply_onehot (mkOnehot n s) (PyArray (IntArray d [n]))
              = inl (AssertionError (Some range_msg))).
Proof.
  split; [|split; [|split]].
  - intros self data d label Hd.
    rewrite (apply_onehot_label self data d label Hd). split.
    + destruct (Z.leb_spec (num_classes self) label); [tauto|].
      split; [|lia].
      destruct (Z.eqb_spec (num_classes self) 0); [discriminate|].
      destruct (Z.ltb_spec (num_classes self) 0); [discriminate|].
      destruct (Z.ltb_spec label (- num_classes self)); discriminate.
    + intros Hn. unfold is_raise.
      destruct (Z.leb_spec (num_classes self) label);
        [split; [lia | by eauto]|].
      destruct (Z.eqb_spec (num_classes self) 0); [lia|].
      destruct (Z.ltb_spec (num_classes self) 0); [lia|].
      destruct (Z.ltb_spec label (- num_classes self));
        [split; [lia | by eauto]|].
      split; [intros [e He]; discriminate | lia].
  - intros self data d label Hd Hl. eexists. split.
    { apply apply_onehot_inr. exists d, label. repeat split; try done; lia. }
    cbn [nd_data]. destruct (Z.leb_spec 0 label); [lia|].
    apply list_lookup_insert_eq. rewrite length_replicate. lia.
  - intros n s.
    destruct (decide (- 2 ^ 63 ≤ n < 2 ^ 64)) as [Hn|Hn].
    + destruct (np_array_PyInt n Hn) as [d Hd].
      rewrite (apply_onehot_label _ _ d n Hd). cbn [num_classes].
      rewrite Z.leb_refl. by eexists.
    + destruct (apply_onehot_not_label (mkOnehot n s) (PyInt n)) as [msg Hm].
      * intros d label. unfold np_array.
        destruct (Z.leb_spec (- 2 ^ 63) n), (Z.ltb_spec n (2 ^ 63));
          cbn [andb]; try lia;
          destruct (Z.leb_spec (2 ^ 63) n), (Z.ltb_spec n (2 ^ 64));
          cbn [andb]; try lia; discriminate.
      * by eexists.
  - intros n s d.
    rewrite (apply_onehot_label (mkOnehot n s) (PyArray (IntArray d [n])) d n eq_refl).
    cbn [num_classes]. by rewrite Z.leb_refl.
Qed.

(** The label 3 with three classes, given as a Python int. *)
Lemma range_check_witness :
  (_apply_onehot (mkOnehot 3 0) (PyInt 3)
     = inl (AssertionError (Some range_msg)) ↔ 3 ≤ 3) ∧
  (0 < 3 → (is_raise (_apply_onehot (mkOnehot 3 0) (PyInt 3))
              ↔ 3 ≤ 3 ∨ 3 < - 3)).
Proof.
  exact (proj1 range_check (mkOnehot 3 0) (PyInt 3) int64 3 eq_refl).
Defined.

(** C1 as stated fails at the label -1 with three classes: the label is
    below zero, and the encoding does not fail, it returns the vector with
    the last entry set. *)
Lemma range_check_negative_label :
  -1 < 0 ∧
  _apply_onehot (mkOnehot 3 0) (PyInt (-1))
    = inr (NdArray (OtherT float32) [0; 0; 1]%Qc) ∧
  ¬ is_raise (_apply_onehot (mkOnehot 3 0) (PyInt (-1))).
Proof.
  assert (H : _apply_onehot (mkOnehot 3 0) (PyInt (-1))
              = inr (NdArray (OtherT float32) [0; 0; 1]%Qc)).
  { by_eval. }
  split; [lia|]. split; [exact H|].
  intros [e He]. rewrite H in He. discriminate.
Qed.

(** C5.  For [0 <= label < num_classes], [_apply_onehot] returns a vector
    of length [num_classes] whose entry at [label] is
    [1 - label_smoothing + label_smoothing / num_classes] and whose other
    entries are [label_smoothing / num_classes]; with [label_smoothing = 0]
    the entry at [label] is 1 and the others are 0. *)
Theorem encode_entries (n : Z) (s : Qc) (data : label_data) d label :
  np_array data = IntArray d [label] →
  0 ≤ label < n →
  (∃ out, _apply_onehot (mkOnehot n s) data = inr out ∧
     Z.of_nat (length (nd_data out)) = n ∧
     ∀ i : nat, Z.of_nat i < n →
       nd_data out !! i =
         Some (if decide (Z.of_nat i = label)
               then (1 - s + s / Z2Qc n)%Qc else (s / Z2Qc n)%Qc)) ∧
  (∃ out, _apply_onehot (mkOnehot n 0) data = inr out ∧
     Z.of_nat (length (nd_data out)) = n ∧
     ∀ i : nat, Z.of_nat i < n →
       nd_data out !! i =
         Some (if decide (Z.of_nat i = label) then 1%Qc else 0%Qc)).
Proof.
  intros Hd Hl.
  assert (Hent : ∀ s' : Qc,
    ∃ out, _apply_onehot (mkOnehot n s') data = inr out ∧
      Z.of_nat (length (nd_data out)) = n ∧
      ∀ i : nat, Z.of_nat i < n →
        nd_data out !! i =
          Some (if decide (Z.of_nat i = label)
                then (1 - s' + s' / Z2Qc n)%Qc else (s' / Z2Qc n)%Qc)).
  { intros s'. eexists. split.
    { apply apply_onehot_inr. exists d, label. cbn [num_classes].
      repeat split; try done; lia. }
    cbn [nd_data num_classes label_smoothing].
    destruct (Z.leb_spec 0 label); [|lia]. split.
    - rewrite length_insert, length_replicate. lia.
    - intros i Hi. destruct (decide (Z.of_nat i = label)) as [<-|Hne].
      + rewrite Nat2Z.id. apply list_lookup_insert_eq.
        rewrite length_replicate. lia.
      + rewrite list_lookup_insert_ne by lia.
        apply lookup_replicate_2. lia. }
  split; [apply Hent|].
  destruct (Hent 0%Qc) as (out & Hout & Hlen & Hi).
  exists out. split; [exact Hout|]. split; [exact Hlen|].
  intros i Hlt. rewrite (Hi i Hlt).
  assert (Hf : (0 / Z2Qc n = 0)%Qc) by (unfold Qcdiv; ring).
  rewrite Hf. destruct (decide (Z.of_nat i = label)); [f_equal; ring | reflexivity].
Qed.

Lemma encode_entries_witness :
  (∃ out, _apply_onehot (mkOnehot 3 (Q2Qc (1 # 10))) (PyArray (IntArray uint8 [1]))
            = inr out ∧
     Z.of_nat (length (nd_data out)) = 3 ∧
     ∀ i : nat, Z.of_nat i < 3 →
       nd_data out !! i =
         Some (if decide (Z.of_nat i = 1)
               then (1 - Q2Qc (1 # 10) + Q2Qc (1 # 10) / Z2Qc 3)%Qc
               else (Q2Qc (1 # 10) / Z2Qc 3)%Qc)) ∧
  (∃ out, _apply_onehot (mkOnehot 3 0) (PyArray (IntArray uint8 [1])) = inr out ∧
     Z.of_nat (length (nd_data out)) = 3 ∧
     ∀ i : nat, Z.of_nat i < 3 →
       nd_data out !! i = Some (if decide (Z.of_nat i = 1) then 1%Qc else 0%Qc)).
Proof.
  apply (encode_entries 3 (Q2Qc (1 # 10)) (PyArray (IntArray uint8 [1])) uint8 1).
  - reflexivity.
  - lia.
Defined.

(** C4.  For [num_classes > 0] and [0 <= label < num_classes] the entries
    of the returned vector sum to 1, for every smoothing (so for those in
    [[0, 1]]).  The sum is exact here, where the arithmetic is. *)
Theorem encode_sums_to_one (self : Onehot) (data : label_data) d label :
  np_array data = IntArray d [label] →
  0 < num_classes self →
  0 ≤ label < num_classes self →
  ∃ out, _apply_onehot self data = inr out ∧ np_sum (nd_data out) = 1%Qc.
Proof.
  intros Hd Hn Hl. eexists. split.
  { apply apply_onehot_inr. exists d, label. repeat split; try done; lia. }
  cbn [nd_data]. destruct (Z.leb_spec 0 label); [|lia].
  rewrite (np_sum_insert _ _ _ (fill self)).
  2:{ apply lookup_replicate_2. lia. }
  rewrite np_sum_replicate, Z2Nat.id by lia.
  field. apply Z2Qc_neq_0. lia.
Qed.

Lemma encode_sums_to_one_witness :
  ∃ out, _apply_onehot (mkOnehot 4 (Q2Qc (1 # 5))) (PyInt 2) = inr out ∧
         np_sum (nd_data out) = 1%Qc.
Proof.
  apply (encode_sums_to_one (mkOnehot 4 (Q2Qc (1 # 5))) (PyInt 2) int64 2).
  - reflexivity.
  - cbn. lia.
  - cbn. lia.
Defined.

(** C10.  Whatever the input, a Python int or an integer array of any
    width, a vector that [_apply_onehot] returns has dtype float32 and
    exactly [num_classes] entries; and a label in [[0, num_classes)] is
    accepted in an array of every integer dtype, and as a Python int that
    NumPy stores as an integer. *)
Theorem result_dtype_and_length :
  (∀ (self : Onehot) (data : label_data) (out : ndarray),
     _apply_onehot self data = inr out →
     nd_dtype out = OtherT float32 ∧
     Z.of_nat (length (nd_data out)) = num_classes self) ∧
  (∀ (self : Onehot) d label, 0 ≤ label < num_classes self →
     ∃ out, _apply_onehot self (PyArray (IntArray d [label])) = inr out) ∧
  (∀ (self : Onehot) label, 0 ≤ label < num_classes self → label < 2 ^ 64 →
     ∃ out, _apply_onehot self (PyInt label) = inr out).
Proof.
  split; [|split].
  - intros self data out (d & label & Hd & Hn & Hl & ->)%apply_onehot_inr.
    cbn [nd_dtype nd_data]. split; [reflexivity|].
    rewrite length_insert, length_replicate. lia.
  - intros self d label Hl. eexists. apply apply_onehot_inr.
    exists d, label. repeat split; try done; lia.
  - intros self label Hl Hb.
    destruct (np_array_PyInt label) as [d Hd]; [lia|].
    eexists. apply apply_onehot_inr.
    exists d, label. repeat split; try done; lia.
Qed.

Lemma result_dtype_and_length_witness :
  nd_dtype (NdArray (OtherT float32)
              (<[1%nat := (1 - 0 + 0 / Z2Qc 3)%Qc]> (replicate 3 (0 / Z2Qc 3)%Qc)))
    = OtherT float32 ∧
  Z.of_nat (length (nd_data (NdArray (OtherT float32)
              (<[1%nat := (1 - 0 + 0 / Z2Qc 3)%Qc]> (replicate 3 (0 / Z2Qc 3)%Qc)))))
    = 3.
Proof.
  apply (proj1 result_dtype_and_length
           (mkOnehot 3 0) (PyArray (IntArray int16 [1]))).
  reflexivity.
Defined.

End OnehotProps.

(* ===================================================================== *)
(** * Properties of dice.py *)
(* ===================================================================== *)

Module DiceProps.
Import DiceTrace.

(** ** The callbacks *)

Lemma on_epoch_end_inr (self : Dice) (data : Data) name rest :
  outputs self = name :: rest →
  on_epoch_end self data = inr (write_with_log data name (np_mean (dice self))).
Proof. intros Ho. unfold on_epoch_end, py_index. by rewrite Ho. Qed.


(** A successful [on_batch_end] appends to the accumulator what it writes to
    the per-instance log, and leaves the other attributes alone. *)
Lemma on_batch_end_appends (self self' : Dice) (data data' : Data) name rest :
  outputs self = name :: rest →
  on_batch_end self data = inr (self', data') →
  ∃ scores, per_instance_logs data' !! name = Some scores ∧
            self' = set_dice self (dice self ++ scores).
Proof.
  intros Ho. unfold on_batch_end.
  destruct (true_key self) as [e|k_true]; [discriminate|]. run.
  destruct (data_getitem data k_true) as [e|y_true]; [discriminate|]. run.
  destruct (pred_key self) as [e|k_pred]; [discriminate|]. run.
  destruct (data_getitem data k_pred) as [e|y_pred]; [discriminate|]. run.
  unfold py_index. rewrite Ho. cbn [lookup list_lookup]. run.
  intros [= <- <-]. eexists. split; [|reflexivity].
  cbn [write_per_instance_log per_instance_logs]. apply lookup_insert_eq.
Qed.

(** The accumulator after the batches of an epoch: what it held before,
    followed by the scores written for each batch, in order. *)
Lemma run_batches_accumulates (batches : list Data) :
  ∀ (self self' : Dice) (batches' : list Data) name rest,
  outputs self = name :: rest →
  run_batches self batches = inr (self', batches') →
  ∃ scores : list (list npfloat),
    Forall2 (λ b' sc, per_instance_logs b' !! name = Some sc) batches' scores ∧
    self' = set_dice self (dice self ++ concat scores).
Proof.
  induction batches as [|b bs IH]; intros self self' batches' name rest Ho.
  - cbn [run_batches]. run. intros [= <- <-]. exists []. split; [constructor|].
    cbn [concat]. rewrite app_nil_r. by destruct self.
  - cbn [run_batches].
    destruct (on_batch_end self b) as [e|[self1 b1]] eqn:Hb; [discriminate|]. run.
    destruct (run_batches self1 bs) as [e|[self2 bs2]] eqn:Hbs; [discriminate|]. run.
    intros [= <- <-].
    destruct (on_batch_end_appends _ _ _ _ _ _ Ho Hb) as (sc & Hsc & ->).
    destruct (IH (set_dice self (dice self ++ sc)) _ _ name rest Ho Hbs)
      as (scs & Hscs & ->).
    exists (sc :: scs). split; [by constructor|].
    cbn [set_dice dice inputs outputs threshold smooth channel_average per_ds concat].
    by rewrite app_assoc.
Qed.

(** ** Binarisation and the score of equal masks *)

Lemma binarize_at (self : Dice) (y_pred : tensor) i c j :
  tensor_at (binarize self y_pred) i c j =
    (λ v, if bool_decide (threshold self < v)%Qc then 1%Qc else 0%Qc)
      <$> tensor_at y_pred i c j.
Proof.
  unfold tensor_at, binarize, astype, np_where_gt. cbn [t_data].
  change (@map) with (@fmap list _). rewrite !list_lookup_fmap.
  destruct (t_data y_pred !! i) as [sample|]; [|reflexivity]. cbn.
  rewrite !list_lookup_fmap.
  destruct (sample !! c) as [channel|]; [|reflexivity]. cbn.
  by rewrite !list_lookup_fmap.
Qed.








(** ** The tests of test_dice.py *)

Example test_on_epoch_begin :
  dice (on_epoch_begin TestDice.dice TestDice.data) = [].
Proof. reflexivity. Qed.

(** The one score of the fixture is (24 + 1e-8) / (32 + 1e-8), which is
    0.750 to the precision the test compares at. *)
Example test_on_batch_end :
  fst <$> on_batch_end TestDice.dice TestDice.data =
    inr (set_dice TestDice.dice [Fin (Q2Qc (2400000001 # 3200000001))]).
Proof. by_eval. Qed.

Example test_on_epoch_end :
  (λ d, logs d !! "Dice")
    <$> on_epoch_end (set_dice TestDice.dice [Fin (Q2Qc (3 # 4))]) TestDice.data
  = inr (Some (Fin (Q2Qc (3 # 4)))).
Proof. by_eval. Qed.

(** ** Claims *)

(** C8.  [on_epoch_begin] leaves the accumulator empty whatever it held, so
    does any number of consecutive calls, and a second call changes nothing
    the first has not. *)
Theorem epoch_begin_idempotent (self : Dice) (d : Data) (ds : list Data) :
  dice (on_epoch_begin self d) = [] ∧
  dice (foldl on_epoch_begin self (d :: ds)) = [] ∧
  (∀ d', on_epoch_begin (on_epoch_begin self d) d' = on_epoch_begin self d).
Proof.
  split; [reflexivity|]. split; [|reflexivity].
  cbn [foldl].
  assert (H : dice (on_epoch_begin self d) = []) by reflexivity.
  revert H. generalize (on_epoch_begin self d). clear self d.
  induction ds as [|d ds IH]; intros self H; cbn [foldl]; [exact H|].
  by apply IH.
Qed.

(** C3.  For a trace whose first output name is [name]: [on_epoch_end]
    returns, and under [name] it logs the mean of the accumulator, which for
    scores s1..sn with n >= 1 is (s1 + ... + sn) / n; and over one epoch
    ([on_epoch_begin], the batches, [on_epoch_end]) the accumulator holds
    exactly the scores written for the batches of that epoch, in order,
    whatever it held before, so the value logged is their mean. *)
Theorem epoch_end_logs_mean (self : Dice) name rest :
  outputs self = name :: rest →
  (∀ data, ∃ data', on_epoch_end self data = inr data' ∧
      logs data' !! name = Some (np_mean (dice self))) ∧
  (∀ data (scores : list Qc), scores ≠ [] → dice self = Fin <$> scores →
    ∃ data', on_epoch_end self data = inr data' ∧
      logs data' !! name =
        Some (Fin (np_sum scores / Z2Qc (Z.of_nat (length scores)))%Qc)) ∧
  (∀ begin_data batches end_data self' batches' end_data',
    run_epoch self begin_data batches end_data
      = inr (self', batches', end_data') →
    ∃ scores : list (list npfloat),
      Forall2 (λ b' sc, per_instance_logs b' !! name = Some sc) batches' scores ∧
      dice self' = concat scores ∧
      logs end_data' !! name = Some (np_mean (concat scores))).
Proof.
  intros Ho. split; [|split].
  - intros data. eexists. split; [by apply (on_epoch_end_inr _ _ name rest)|].
    cbn [write_with_log logs]. apply lookup_insert_eq.
  - intros data scores Hne Hd. eexists.
    split; [by apply (on_epoch_end_inr _ _ name rest)|].
    cbn [write_with_log logs]. rewrite lookup_insert_eq, Hd.
    by rewrite np_mean_Fin.
  - intros begin_data batches end_data self' batches' end_data'.
    unfold run_epoch.
    destruct (run_batches (on_epoch_begin self begin_data) batches)
      as [e|[self1 bs1]] eqn:Hb; [discriminate|]. run.
    destruct (run_batches_accumulates batches (on_epoch_begin self begin_data)
                _ _ name rest Ho Hb) as (scores & Hsc & ->).
    rewrite (on_epoch_end_inr _ end_data name rest) by exact Ho. run.
    intros [= <- <- <-]. exists scores. split; [exact Hsc|].
    cbn [on_epoch_begin set_dice dice app write_with_log logs].
    split; [reflexivity|]. apply lookup_insert_eq.
Qed.

Lemma epoch_end_logs_mean_witness :
  ∃ data', on_epoch_end (set_dice TestDice.dice [Fin (Q2Qc (3 # 4))]) TestDice.data
             = inr data' ∧
    logs data' !! "Dice" = Some (Fin (np_sum [Q2Qc (3 # 4)] / Z2Qc 1)%Qc).
Proof.
  refine (proj1 (proj2 (epoch_end_logs_mean
            (set_dice TestDice.dice [Fin (Q2Qc (3 # 4))]) "Dice" [] _))
          TestDice.data [Q2Qc (3 # 4)] _ _).
  - reflexivity.
  - discriminate.
  - reflexivity.
Defined.

(** C9.  With an empty accumulator ([on_epoch_begin] and then no batch)
    [on_epoch_end] does not raise: it writes the mean of the empty sequence,
    which is NaN and so not finite, under the output name. *)
Theorem epoch_end_empty (self : Dice) name rest (begin_data end_data : Data) :
  outputs self = name :: rest →
  ∃ end_data',
    on_epoch_end (on_epoch_begin self begin_data) end_data = inr end_data' ∧
    run_epoch self begin_data [] end_data
      = inr (on_epoch_begin self begin_data, [], end_data') ∧
    logs end_data' !! name = Some NaN ∧
    is_finite NaN = false.
Proof.
  intros Ho. eexists. split; [|split; [|split]].
  - by apply (on_epoch_end_inr _ _ name rest).
  - unfold run_epoch. cbn [run_batches]. run.
    by rewrite (on_epoch_end_inr _ _ name rest).
  - cbn [write_with_log logs on_epoch_begin set_dice dice].
    rewrite lookup_insert_eq. by rewrite np_mean_empty.
  - reflexivity.
Qed.

Lemma epoch_end_empty_witness :
  ∃ end_data',
    on_epoch_end (on_epoch_begin TestDice.dice TestDice.data) TestDice.data
      = inr end_data' ∧
    run_epoch TestDice.dice TestDice.data [] TestDice.data
      = inr (on_epoch_begin TestDice.dice TestDice.data, [], end_data') ∧
    logs end_data' !! "Dice" = Some NaN ∧
    is_finite NaN = false.
Proof.
  apply (epoch_end_empty TestDice.dice "Dice" [] TestDice.data TestDice.data).
  reflexivity.
Defined.



End DiceProps.

(* ===================================================================== *)
(** * Properties of _sparse_categorical_crossentropy.py *)
(* ===================================================================== *)

Module CrossEntropyProps.
Import CrossEntropy.

(** ** The docstring's examples *)

Example doc_per_sample_tf :
  DocExample.scce (TfTensor DocExample.y_pred) (TfTensor DocExample.y_true)
    false false None
  = inr (PerSample [Fin (Q2Qc (22 # 100)); Fin (Q2Qc (11 # 100));
                    Fin (Q2Qc (36 # 100))]).
Proof. by_eval. Qed.

Example doc_weighted_tf :
  DocExample.scce (TfTensor DocExample.y_pred) (TfTensor DocExample.y_true)
    false false (Some (StaticHashTable int32 DocExample.weights 1%Qc))
  = inr (PerSample [Fin (Q2Qc (44 # 100)); Fin (Q2Qc (11 # 100));
                    Fin (Q2Qc (108 # 100))]).
Proof. by_eval. Qed.

Example doc_weighted_torch :
  DocExample.scce (TorchTensor DocExample.y_pred) (TorchTensor DocExample.y_true)
    false false (Some (PyDict DocExample.weights))
  = inr (PerSample [Fin (Q2Qc (44 # 100)); Fin (Q2Qc (11 # 100));
                    Fin (Q2Qc (108 # 100))]).
Proof. by_eval. Qed.

Example doc_average_torch :
  DocExample.scce (TorchTensor DocExample.y_pred) (TorchTensor DocExample.y_true)
    false true None
  = inr (Scalar (Fin (Q2Qc (23 # 100)))).
Proof. by_eval. Qed.

(** ** Sample weights *)

Lemma masked_assign_lookup (sw : list Qc) (y_true : list Z) key w i y w0 :
  y_true !! i = Some y → sw !! i = Some w0 →
  masked_assign sw y_true key w !! i = Some (if decide (y = key) then w else w0).
Proof.
  intros Hy Hw. unfold masked_assign.
  rewrite lookup_zip_with, Hy. cbn. rewrite Hw. cbn.
  destruct (decide (y = key));
    [by rewrite bool_decide_eq_true_2 | by rewrite bool_decide_eq_false_2].
Qed.

(** After the loop over [keys], a sample whose class is among the keys has
    the weight the dict gives its class, and any other sample has the weight
    it started with. *)
Lemma weights_loop_lookup (d : gmap Z Qc) (y_true : list Z) (keys : list Z) :
  ∀ (sw : list Qc) i y w0,
  y_true !! i = Some y → sw !! i = Some w0 →
  weights_loop d y_true keys sw !! i =
    Some (if decide (y ∈ keys) then dict_getitem d y else w0).
Proof.
  unfold weights_loop.
  induction keys as [|k keys IH]; intros sw i y w0 Hy Hw; cbn [foldl].
  - rewrite Hw. by rewrite decide_False by apply not_elem_of_nil.
  - rewrite (IH _ i y _ Hy (masked_assign_lookup _ _ k _ _ _ _ Hy Hw)).
    f_equal. destruct (decide (y = k)) as [->|Hne].
    + rewrite (decide_True (P := k ∈ k :: keys)) by apply list_elem_of_here.
      by destruct (decide (k ∈ keys)).
    + destruct (decide (y ∈ keys)) as [Hin|Hnin].
      * by rewrite decide_True by by apply list_elem_of_further.
      * rewrite decide_False; [done|]. by intros [?|?]%elem_of_cons.
Qed.

(** The loop of the PyTorch path gives every sample the weight of its class,
    1.0 when the dict does not hold the class. *)
Lemma torch_sample_weights (d : gmap Z Qc) (y_true : list Z) i y :
  y_true !! i = Some y →
  weights_loop d y_true (dict_keys d) (replicate (length y_true) 1%Qc) !! i
    = Some (default 1%Qc (d !! y)).
Proof.
  intros Hy.
  rewrite (weights_loop_lookup d y_true (dict_keys d) _ i y 1%Qc Hy).
  2:{ apply lookup_replicate_2. by eapply lookup_lt_Some. }
  f_equal. unfold dict_keys, dict_getitem.
  destruct (d !! y) as [w|] eqn:Hd; cbn.
  - by rewrite decide_True by (apply list_elem_of_fmap; exists (y, w);
      split; [done | by apply elem_of_map_to_list]).
  - rewrite decide_False; [done|].
    intros ([k w] & -> & Hin%elem_of_map_to_list)%list_elem_of_fmap.
    cbn in Hd. congruence.
Qed.

Lemma table_lookup_lookup (table : gmap Z Qc) dv (keys : list Z) i k :
  keys !! i = Some k →
  table_lookup table dv keys !! i = Some (default dv (table !! k)).
Proof.
  intros Hk. unfold table_lookup. change (@map) with (@fmap list _).
  by rewrite list_lookup_fmap, Hk.
Qed.

Lemma scale_lookup (ce : list npfloat) (sw : list Qc) i c w :
  ce !! i = Some c → sw !! i = Some w →
  scale ce sw !! i = Some (npf_mul c (Fin w)).
Proof.
  intros Hc Hw. unfold scale. rewrite lookup_zip_with, Hc. cbn. by rewrite Hw.
Qed.

Lemma list_comprehension_length {A B : Type} (f : A → result B) (xs : list A) ys :
  list_comprehension f xs = inr ys → length ys = length xs.
Proof.
  revert ys. induction xs as [|x xs IH]; intros ys; cbn [list_comprehension].
  - by intros [= <-].
  - destruct (f x) as [e|y]; [discriminate|]. run.
    destruct (list_comprehension f xs) as [e|ys']; [discriminate|]. run.
    intros [= <-]. cbn [length]. by rewrite (IH ys').
Qed.

Lemma on_batch_length {R : Type} (f : R → Z → result npfloat) rows labels ce :
  on_batch f rows labels = inr ce →
  length ce = length rows ∧ length labels = length rows.
Proof.
  unfold on_batch.
  destruct (Nat.eqb_spec (length rows) (length labels)) as [Hl|]; [|discriminate].
  intros Hc%list_comprehension_length.
  rewrite length_zip_with in Hc. lia.
Qed.

Lemma weights_loop_length (d : gmap Z Qc) (y_true : list Z) (keys : list Z) :
  ∀ sw : list Qc, length sw = length y_true →
  length (weights_loop d y_true keys sw) = length y_true.
Proof.
  unfold weights_loop. induction keys as [|k keys IH]; intros sw Hl; [done|].
  cbn [foldl]. apply IH. unfold masked_assign.
  rewrite length_zip_with. lia.
Qed.

Lemma tf_cast_in_range (d : int_dtype) (z : Z) :
  int_min d ≤ z < int_min d + 2 ^ int_bits d → tf_cast d z = z.
Proof. intros Hz. unfold tf_cast. rewrite Z.mod_small by lia. lia. Qed.

Lemma result_bind_assoc {A B C : Type} (m : result A)
    (f : A → result B) (g : B → result C) :
  (m ≫= f) ≫= g = m ≫= (λ a, f a ≫= g).
Proof. by destruct m. Qed.

Section Claims.

Variable tf_loss : bool → list Qc → Z → result npfloat.
Variable torch_ce : list Qc → Z → result npfloat.
Variable torch_nll : list npfloat → Z → result npfloat.
Variable torch_log : Qc → npfloat.

Local Abbreviation scce :=
  (sparse_categorical_crossentropy tf_loss torch_ce torch_nll torch_log).

(** The per-sample losses of each path before they are weighted. *)
Local Abbreviation torch_losses pred y_true from_logits :=
  (if from_logits then on_batch torch_ce pred y_true
   else on_batch torch_nll (map (map torch_log) pred) y_true).

Lemma scce_torch pred y_true from_logits average_loss class_weights :
  scce (TorchTensor pred) (TorchTensor y_true) from_logits average_loss class_weights =
    ce ← torch_losses pred y_true from_logits;
    ce ← match class_weights with
         | None => mret ce
         | Some (PyDict d) =>
             mret (scale ce (weights_loop d y_true (dict_keys d)
                               (replicate (length y_true) 1%Qc)))
         | Some (StaticHashTable _ _ _) => raise AttributeError
         end;
    mret (if average_loss then Scalar (reduce_mean ce) else PerSample ce).
Proof.
  unfold sparse_categorical_crossentropy. cbn [isinstance_tensor]. run.
  destruct from_logits;
    [destruct (on_batch torch_ce pred y_true) as [e|ce]
    |destruct (on_batch torch_nll (map (map torch_log) pred) y_true) as [e|ce]];
    run; try reflexivity; by destruct class_weights as [[]|].
Qed.

Lemma scce_tf pred y_true from_logits average_loss class_weights :
  scce (TfTensor pred) (TfTensor y_true) from_logits average_loss class_weights =
    ce ← on_batch (tf_loss from_logits) pred y_true;
    ce ← match class_weights with
         | None => mret ce
         | Some (StaticHashTable key_dtype table default_value) =>
             mret (scale ce (table_lookup table default_value
                               (map (tf_cast key_dtype) y_true)))
         | Some (PyDict _) => raise AttributeError
         end;
    mret (if average_loss then Scalar (reduce_mean ce) else PerSample ce).
Proof.
  unfold sparse_categorical_crossentropy. cbn [isinstance_tensor]. run.
  destruct (on_batch (tf_loss from_logits) pred y_true) as [e|ce]; run;
    [reflexivity|]. by destruct class_weights as [[]|].
Qed.

(** The reduction is the last step of both paths: the averaged result is
    the mean of what the function returns without averaging. *)
Lemma scce_average y_pred y_true from_logits class_weights :
  scce y_pred y_true from_logits true class_weights =
    l ← scce y_pred y_true from_logits false class_weights;
    match l with
    | PerSample ce => mret (Scalar (reduce_mean ce))
    | Scalar x => mret (Scalar x)
    end.
Proof.
  unfold sparse_categorical_crossentropy.
  destruct (py_assert (isinstance_tensor y_pred) (Some msg_pred)); [done|]. run.
  destruct (py_assert (isinstance_tensor y_true) (Some msg_true)); [done|]. run.
  by rewrite result_bind_assoc.
Qed.

(** The weighting step keeps the number of losses. *)
Lemma torch_weighting_length (class_weights : option Weight_Dict)
    (ce ce' : list npfloat) (y_true : list Z) :
  length y_true = length ce →
  match class_weights with
  | None => mret ce
  | Some (PyDict d) =>
      mret (scale ce (weights_loop d y_true (dict_keys d)
                        (replicate (length y_true) 1%Qc)))
  | Some (StaticHashTable _ _ _) => raise AttributeError
  end = inr ce' →
  length ce' = length ce.
Proof.
  intros Hl. destruct class_weights as [[kd table dv|d]|]; [discriminate| |].
  - intros [= <-]. unfold scale.
    rewrite length_zip_with, weights_loop_length by by rewrite length_replicate.
    lia.
  - by intros [= <-].
Qed.

Lemma tf_weighting_length (class_weights : option Weight_Dict)
    (ce ce' : list npfloat) (y_true : list Z) :
  length y_true = length ce →
  match class_weights with
  | None => mret ce
  | Some (StaticHashTable key_dtype table default_value) =>
      mret (scale ce (table_lookup table default_value
                        (map (tf_cast key_dtype) y_true)))
  | Some (PyDict _) => raise AttributeError
  end = inr ce' →
  length ce' = length ce.
Proof.
  intros Hl. destruct class_weights as [[kd table dv|d]|]; [|discriminate|].
  - intros [= <-]. unfold scale, table_lookup.
    rewrite length_zip_with, !length_map. lia.
  - by intros [= <-].
Qed.

Lemma bind_PerSample_inr (m : result (list npfloat)) (l : loss) :
  (ce ← m; mret (PerSample ce)) = inr l → ∃ ce, m = inr ce ∧ l = PerSample ce.
Proof. destruct m as [e|ce]; [discriminate|]. intros [= <-]. by exists ce. Qed.

(** Without averaging the function returns one loss per row of [y_pred]. *)
Lemma scce_per_sample y_pred y_true from_logits class_weights l :
  scce y_pred y_true from_logits false class_weights = inr l →
  ∃ ce, l = PerSample ce ∧
    ∀ pred, y_pred = TfTensor pred ∨ y_pred = TorchTensor pred →
            length ce = length pred.
Proof.
  destruct y_pred as [pred|pred|]; [| |discriminate];
    (destruct y_true as [y_true|y_true|]; [| |discriminate]); try discriminate.
  - rewrite scce_tf.
    destruct (on_batch (tf_loss from_logits) pred y_true) as [e|ce] eqn:Hce;
      [discriminate|]. run.
    destruct (on_batch_length _ _ _ _ Hce) as [Hl1 Hl2].
    intros (ce' & Hw & ->)%bind_PerSample_inr.
    apply tf_weighting_length in Hw; [|lia].
    exists ce'. split; [reflexivity|].
    intros pred' [[= <-]|[=]]. lia.
  - rewrite scce_torch.
    destruct (torch_losses pred y_true from_logits) as [e|ce] eqn:Hce;
      [by destruct from_logits|].
    assert (Hl : length ce = length pred ∧ length y_true = length pred).
    { destruct from_logits; apply on_batch_length in Hce;
        by rewrite ?length_map in Hce. }
    run. intros (ce' & Hw & ->)%bind_PerSample_inr.
    apply torch_weighting_length in Hw; [|lia].
    exists ce'. split; [reflexivity|].
    intros pred' [[=]|[= <-]]. lia.
Qed.

(** C6.  With [average_loss] the result is the scalar mean of the
    per-sample losses, the same losses that are returned as a vector of shape
    (Batch) without it: the two calls differ by that last step only, and
    raise the same exception when they raise. *)
Theorem average_loss_reduction y_pred y_true from_logits class_weights :
  (∀ e, scce y_pred y_true from_logits false class_weights = inl e →
        scce y_pred y_true from_logits true class_weights = inl e) ∧
  (∀ l, scce y_pred y_true from_logits false class_weights = inr l →
     ∃ ce, l = PerSample ce ∧
       (∀ pred, y_pred = TfTensor pred ∨ y_pred = TorchTensor pred →
                length ce = length pred) ∧
       scce y_pred y_true from_logits true class_weights
         = inr (Scalar (np_mean ce)) ∧
       (∀ qs : list Qc, qs ≠ [] → ce = Fin <$> qs →
          scce y_pred y_true from_logits true class_weights
            = inr (Scalar (Fin (np_sum qs / Z2Qc (Z.of_nat (length qs)))%Qc)))).
Proof.
  split.
  - intros e He. by rewrite scce_average, He.
  - intros l Hl.
    destruct (scce_per_sample _ _ _ _ _ Hl) as (ce & -> & Hlen).
    assert (Hmean : scce y_pred y_true from_logits true class_weights
                    = inr (Scalar (np_mean ce))).
    { by rewrite scce_average, Hl. }
    exists ce. repeat split; [exact Hlen | exact Hmean |].
    intros qs Hne ->. by rewrite Hmean, np_mean_Fin.
Qed.

(** C2, as the code has it.  With [class_weights] each per-sample loss is
    the unweighted one times the weight of the sample's true class.  On the
    PyTorch path, where the weights are a dict, a class the dict does not hold
    has weight 1.0, so its loss is unchanged.  On the TensorFlow path, where
    they are a static hash table, the class is looked up after the cast to
    the table's key dtype, which keeps every label the dtype holds, and a
    class the table does not hold has the table's own default value. *)
Theorem class_weights_scale pred y_true from_logits ce :
  (scce (TorchTensor pred) (TorchTensor y_true) from_logits false None
     = inr (PerSample ce) →
   ∀ d : gmap Z Qc, ∃ ce',
     scce (TorchTensor pred) (TorchTensor y_true) from_logits false
          (Some (PyDict d)) = inr (PerSample ce') ∧
     length ce' = length ce ∧
     ∀ i c y, ce !! i = Some c → y_true !! i = Some y →
       ce' !! i = Some (npf_mul c (Fin (default 1%Qc (d !! y)))) ∧
       (d !! y = None → ce' !! i = Some c)) ∧
  (scce (TfTensor pred) (TfTensor y_true) from_logits false None
     = inr (PerSample ce) →
   ∀ key_dtype (table : gmap Z Qc) default_value, ∃ ce',
     scce (TfTensor pred) (TfTensor y_true) from_logits false
          (Some (StaticHashTable key_dtype table default_value))
       = inr (PerSample ce') ∧
     length ce' = length ce ∧
     ∀ i c y, ce !! i = Some c → y_true !! i = Some y →
       ce' !! i = Some (npf_mul c
                   (Fin (default default_value (table !! tf_cast key_dtype y)))) ∧
       (int_min key_dtype ≤ y < int_min key_dtype + 2 ^ int_bits key_dtype →
        tf_cast key_dtype y = y) ∧
       (table !! tf_cast key_dtype y = None →
        ce' !! i = Some (npf_mul c (Fin default_value)))).
Proof.
  split.
  - rewrite scce_torch.
    destruct (torch_losses pred y_true from_logits) as [e|ce0] eqn:Hce;
      [by destruct from_logits|].
    assert (Hlen : length ce0 = length y_true).
    { destruct from_logits; apply on_batch_length in Hce;
        rewrite ?length_map in Hce; lia. }
    run. intros [= ->] d. eexists. split.
    { rewrite scce_torch, Hce. run. reflexivity. }
    assert (Hsw : length (weights_loop d y_true (dict_keys d)
                            (replicate (length y_true) 1%Qc)) = length y_true).
    { apply weights_loop_length. by rewrite length_replicate. }
    split; [unfold scale; rewrite length_zip_with; lia|].
    intros i c y Hc Hy.
    rewrite (scale_lookup _ _ i c _ Hc (torch_sample_weights d y_true i y Hy)).
    split; [reflexivity|]. intros ->. cbn [default]. by rewrite npf_mul_1_r.
  - rewrite scce_tf.
    destruct (on_batch (tf_loss from_logits) pred y_true) as [e|ce0] eqn:Hce;
      [discriminate|].
    run. intros [= ->] kd table dv. eexists. split.
    { rewrite scce_tf, Hce. run. reflexivity. }
    apply on_batch_length in Hce. split.
    { unfold scale, table_lookup. rewrite length_zip_with, !length_map. lia. }
    intros i c y Hc Hy.
    rewrite (scale_lookup _ _ i c (default dv (table !! tf_cast kd y)) Hc).
    2:{ apply table_lookup_lookup. change (@map) with (@fmap list _).
        by rewrite list_lookup_fmap, Hy. }
    split; [reflexivity|]. split; [apply tf_cast_in_range|]. by intros ->.
Qed.

End Claims.

Lemma average_loss_reduction_witness :
  ∃ ce, PerSample [Fin (Q2Qc (22 # 100)); Fin (Q2Qc (11 # 100));
                   Fin (Q2Qc (36 # 100))] = PerSample ce ∧
    (∀ pred, TorchTensor DocExample.y_pred = TfTensor pred
             ∨ TorchTensor DocExample.y_pred = TorchTensor pred →
             length ce = length pred) ∧
    DocExample.scce (TorchTensor DocExample.y_pred) (TorchTensor DocExample.y_true)
      false true None = inr (Scalar (np_mean ce)) ∧
    (∀ qs : list Qc, qs ≠ [] → ce = Fin <$> qs →
       DocExample.scce (TorchTensor DocExample.y_pred) (TorchTensor DocExample.y_true)
         false true None
       = inr (Scalar (Fin (np_sum qs / Z2Qc (Z.of_nat (length qs)))%Qc))).
Proof.
  apply (proj2 (average_loss_reduction DocExample.tf_loss DocExample.torch_ce
                  DocExample.torch_nll DocExample.torch_log
                  (TorchTensor DocExample.y_pred) (TorchTensor DocExample.y_true)
                  false None)).
  by_eval.
Defined.

Lemma class_weights_scale_witness :
  ∃ ce',
    DocExample.scce (TorchTensor DocExample.y_pred) (TorchTensor DocExample.y_true)
      false false (Some (PyDict DocExample.weights)) = inr (PerSample ce') ∧
    length ce' = 3%nat ∧
    ∀ i c y,
      [Fin (Q2Qc (22 # 100)); Fin (Q2Qc (11 # 100)); Fin (Q2Qc (36 # 100))] !! i
        = Some c →
      DocExample.y_true !! i = Some y →
      ce' !! i = Some (npf_mul c (Fin (default 1%Qc (DocExample.weights !! y)))) ∧
      (DocExample.weights !! y = None → ce' !! i = Some c).
Proof.
  refine (proj1 (class_weights_scale DocExample.tf_loss DocExample.torch_ce
                   DocExample.torch_nll DocExample.torch_log
                   DocExample.y_pred DocExample.y_true false
                   [Fin (Q2Qc (22 # 100)); Fin (Q2Qc (11 # 100));
                    Fin (Q2Qc (36 # 100))]) _ DocExample.weights).
  by_eval.
Defined.

(** C2 as stated fails on the TensorFlow path for a table built with a
    default value other than 1.0: with the docstring's weights in a table
    whose default is 0.5, the second sample, whose class 0 the table does not
    hold, has the loss 0.11 * 0.5 and not 0.11 * 1.0. *)
Lemma class_weights_tf_default :
  DocExample.weights !! 0 = None ∧
  DocExample.scce (TfTensor DocExample.y_pred) (TfTensor DocExample.y_true)
    false false None
  = inr (PerSample [Fin (Q2Qc (22 # 100)); Fin (Q2Qc (11 # 100));
                    Fin (Q2Qc (36 # 100))]) ∧
  DocExample.scce (TfTensor DocExample.y_pred) (TfTensor DocExample.y_true)
    false false (Some (StaticHashTable int32 DocExample.weights (Q2Qc (1 # 2))))
  = inr (PerSample [Fin (Q2Qc (44 # 100)); Fin (Q2Qc (55 # 1000));
                    Fin (Q2Qc (108 # 100))]) ∧
  Fin (Q2Qc (55 # 1000)) ≠ npf_mul (Fin (Q2Qc (11 # 100))) (Fin 1%Qc).
Proof. repeat split; by_eval. Qed.

End CrossEntropyProps.

(* ===================================================================== *)
(** * Further properties of onehot.py *)
(* ===================================================================== *)

Module OnehotMore.
Import OnehotOp OnehotProps.

(** ** The list comprehension of [forward] *)

(** Two results of one call, one raised and one returned. *)
Ltac clash :=
  cbv beta in *;
  match goal with
  | H1 : @eq _ ?t (inl _), H2 : @eq _ ?t (inr _) |- _ =>
      rewrite H1 in H2; discriminate H2
  end.

Lemma list_comprehension_inr {A B : Type} (f : A → result B) xs ys :
  list_comprehension f xs = inr ys ↔ Forall2 (λ x y, f x = inr y) xs ys.
Proof.
  revert ys. induction xs as [|x xs IH]; intros ys; cbn [list_comprehension].
  - split; [intros [= <-]; constructor | by inversion 1].
  - destruct (f x) as [e|y] eqn:Hx; run.
    + split; [discriminate | inversion 1; clash].
    + destruct (list_comprehension f xs) as [e|ys'] eqn:Hxs; run.
      * split; [discriminate|]. inversion 1 as [|? y0 ? ys0 Hy0 Hys0]; subst.
        apply IH in Hys0. discriminate Hys0.
      * split.
        -- intros [= <-]. constructor; [exact Hx | by apply IH].
        -- inversion 1 as [|? y0 ? ys0 Hy0 Hys0]; subst.
           apply IH in Hys0. cbv beta in Hy0. rewrite Hx in Hy0.
           by simplify_eq.
Qed.

Lemma list_comprehension_inl {A B : Type} (f : A → result B) xs e :
  list_comprehension f xs = inl e ↔
  ∃ before x after, xs = before ++ x :: after ∧
    Forall (λ x, ∃ y, f x = inr y) before ∧ f x = inl e.
Proof.
  induction xs as [|x xs IH]; cbn [list_comprehension].
  - split; [discriminate|]. intros (before & x & after & Heq & _).
    by destruct before.
  - destruct (f x) as [e'|y] eqn:Hx; run.
    + split.
      * intros [= ->]. exists [], x, xs. by repeat split.
      * intros (before & x' & after & Heq & Hb & Hx').
        destruct before as [|b before]; simplify_eq/=.
        -- rewrite Hx in Hx'. by simplify_eq.
        -- inversion_clear Hb as [|? ? [y Hy] Hb']. clash.
    + destruct (list_comprehension f xs) as [e'|ys] eqn:Hxs; run.
      * split.
        -- intros Heq. destruct (proj1 IH Heq)
             as (before & x' & after & -> & Hb & Hx').
           exists (x :: before), x', after. repeat split; [|done].
           constructor; [by eexists | done].
        -- intros (before & x' & after & Heq & Hb & Hx').
           destruct before as [|b before]; simplify_eq/=; [clash|].
           inversion_clear Hb as [|? ? _ Hb'].
           apply IH. by exists before, x', after.
      * split; [discriminate|].
        intros (before & x' & after & Heq & Hb & Hx').
        destruct before as [|b before]; simplify_eq/=; [clash|].
        inversion_clear Hb as [|? ? _ Hb'].
        assert (Hi : (inr ys : result (list B)) = inl e); [|discriminate Hi].
        apply IH. by exists before, x', after.
Qed.

Lemma list_comprehension_app {A B : Type} (f : A → result B) xs1 xs2 :
  list_comprehension f (xs1 ++ xs2) =
    ys1 ← list_comprehension f xs1;
    ys2 ← list_comprehension f xs2;
    mret (ys1 ++ ys2).
Proof.
  induction xs1 as [|x xs1 IH]; cbn [list_comprehension app].
  - run. by destruct (list_comprehension f xs2).
  - destruct (f x) as [e|y]; run; [done|]. rewrite IH.
    destruct (list_comprehension f xs1) as [e|ys1]; run; [done|].
    by destruct (list_comprehension f xs2).
Qed.

(** X1.  [forward] returns exactly when every label of the batch is
    accepted on its own, and then it returns one vector per label, in the
    order of the labels, each the encoding of its label. *)
Theorem forward_pointwise (self : Onehot) (data : list label_data)
    (outs : list ndarray) :
  forward self data = inr outs ↔
  length outs = length data ∧
  ∀ i x, data !! i = Some x →
    ∃ out, outs !! i = Some out ∧ _apply_onehot self x = inr out.
Proof.
  unfold forward. rewrite list_comprehension_inr. split.
  - intros H. split; [symmetry; by eapply Forall2_length|].
    intros i x Hx.
    destruct (Forall2_lookup_l _ _ _ _ _ H Hx) as (out & Ho & Hf). by exists out.
  - intros [Hlen H]. apply Forall2_same_length_lookup. split; [done|].
    intros i x out Hx Ho. destruct (H i x Hx) as (out' & Ho' & Hf).
    rewrite Ho in Ho'. by simplify_eq.
Qed.

Lemma forward_pointwise_witness :
  length [NdArray (OtherT float32) [0; 1; 0]%Qc;
          NdArray (OtherT float32) [0; 0; 1]%Qc]
    = length [PyInt 1; PyArray (IntArray uint8 [2])] ∧
  ∀ i x, [PyInt 1; PyArray (IntArray uint8 [2])] !! i = Some x →
    ∃ out, [NdArray (OtherT float32) [0; 1; 0]%Qc;
            NdArray (OtherT float32) [0; 0; 1]%Qc] !! i = Some out ∧
           _apply_onehot (mkOnehot 3 0) x = inr out.
Proof.
  apply (proj1 (forward_pointwise (mkOnehot 3 0)
                  [PyInt 1; PyArray (IntArray uint8 [2])]
                  [NdArray (OtherT float32) [0; 1; 0]%Qc;
                   NdArray (OtherT float32) [0; 0; 1]%Qc])).
  by_eval.
Defined.

(** X2.  [forward] raises exactly the exception of the first label of the
    batch that is not accepted: the labels before it are accepted, the
    labels after it are not looked at. *)
Theorem forward_first_error (self : Onehot) (data : list label_data) (e : exn) :
  forward self data = inl e ↔
  ∃ before x after, data = before ++ x :: after ∧
    Forall (λ x, ∃ out, _apply_onehot self x = inr out) before ∧
    _apply_onehot self x = inl e.
Proof. apply list_comprehension_inl. Qed.

Lemma forward_first_error_witness :
  ∃ before x after,
    [PyInt 1; PyInt 3; PyArray (OtherArray float32 1)] = before ++ x :: after ∧
    Forall (λ x, ∃ out, _apply_onehot (mkOnehot 3 0) x = inr out) before ∧
    _apply_onehot (mkOnehot 3 0) x = inl (AssertionError (Some range_msg)).
Proof.
  apply (proj1 (forward_first_error (mkOnehot 3 0)
                  [PyInt 1; PyInt 3; PyArray (OtherArray float32 1)]
                  (AssertionError (Some range_msg)))).
  by_eval.
Defined.

(** X3.  [forward] on an empty batch returns the empty list, whatever the
    operator's attributes, and on a batch in two parts it is [forward] on the
    first part and then, if that returns, on the second, the results
    joined. *)
Theorem forward_app (self : Onehot) (data1 data2 : list label_data) :
  forward self [] = inr [] ∧
  forward self (data1 ++ data2) =
    outs1 ← forward self data1;
    outs2 ← forward self data2;
    mret (outs1 ++ outs2).
Proof. split; [reflexivity | apply list_comprehension_app]. Qed.

(** ** Single labels *)

(** X4.  What [_apply_onehot] does with a label does not depend on how the
    label arrives: an integer array gives the same result whatever its
    integer dtype, and a Python int that NumPy stores as an integer gives the
    same result as the array holding it, whether that result is a vector or
    an exception. *)
Theorem input_form_irrelevant (self : Onehot) :
  (∀ d d' flat,
     _apply_onehot self (PyArray (IntArray d flat))
       = _apply_onehot self (PyArray (IntArray d' flat))) ∧
  (∀ d z, - 2 ^ 63 ≤ z < 2 ^ 64 →
     _apply_onehot self (PyInt z)
       = _apply_onehot self (PyArray (IntArray d [z]))).
Proof.
  split.
  - intros d d' flat. unfold _apply_onehot. cbn [np_array la_dtype la_size la_item].
    by rewrite !int_dtype_passes.
  - intros d z Hz. destruct (np_array_PyInt z Hz) as [d0 Hd0].
    rewrite (apply_onehot_label self (PyInt z) d0 z Hd0).
    by rewrite (apply_onehot_label self (PyArray (IntArray d [z])) d z eq_refl).
Qed.

Lemma input_form_irrelevant_witness :
  _apply_onehot (mkOnehot 3 0) (PyInt 2)
    = _apply_onehot (mkOnehot 3 0) (PyArray (IntArray uint8 [2])).
Proof.
  apply (proj2 (input_form_irrelevant (mkOnehot 3 0)) uint8 2). lia.
Defined.



(** X6.  An operator built with [num_classes <= 0] encodes nothing: every
    input raises.  For one integer label the exception is the range
    assertion when [label >= num_classes], and below that a division by zero
    when [num_classes = 0] and the ValueError of [np.full] when
    [num_classes < 0]. *)
Theorem no_classes (self : Onehot) (data : label_data) :
  num_classes self ≤ 0 →
  is_raise (_apply_onehot self data) ∧
  ∀ d label, np_array data = IntArray d [label] →
    _apply_onehot self data =
      if num_classes self <=? label then inl (AssertionError (Some range_msg))
      else if num_classes self =? 0 then inl ZeroDivisionError
      else inl ValueError.
Proof.
  intros Hn.
  assert (H : ∀ d label, np_array data = IntArray d [label] →
    _apply_onehot self data =
      if num_classes self <=? label then inl (AssertionError (Some range_msg))
      else if num_classes self =? 0 then inl ZeroDivisionError
      else inl ValueError).
  { intros d label Hd. rewrite (apply_onehot_label self data d label Hd).
    destruct (Z.leb_spec (num_classes self) label); [done|].
    destruct (Z.eqb_spec (num_classes self) 0); [done|].
    destruct (Z.ltb_spec (num_classes self) 0); [done | lia]. }
  split; [|exact H].
  destruct (np_array data) as [d [|label [|z flat]]|d size] eqn:Hd.
  1,3,4: destruct (apply_onehot_not_label self data) as [msg Hm];
    [intros d' l'; rewrite Hd; discriminate | by eexists].
  rewrite (H d label eq_refl).
  destruct (num_classes self <=? label); [by eexists|].
  destruct (num_classes self =? 0); by eexists.
Qed.

Lemma no_classes_witness :
  is_raise (_apply_onehot (mkOnehot 0 0) (PyInt (-1))) ∧
  ∀ d label, np_array (PyInt (-1)) = IntArray d [label] →
    _apply_onehot (mkOnehot 0 0) (PyInt (-1)) =
      if 0 <=? label then inl (AssertionError (Some range_msg))
      else if 0 =? 0 then inl ZeroDivisionError
      else inl ValueError.
Proof. apply (no_classes (mkOnehot 0 0) (PyInt (-1))). cbn. lia. Defined.

(** X7.  A negative label in [[-num_classes, 0)] is encoded as the label
    [num_classes] above it: the two give the same vector, so the encoding of
    the accepted labels is two to one. *)
Theorem negative_label_alias (self : Onehot) d d' label :
  0 ≤ label < num_classes self →
  _apply_onehot self (PyArray (IntArray d [label - num_classes self]))
    = _apply_onehot self (PyArray (IntArray d' [label])) ∧
  ∃ out, _apply_onehot self (PyArray (IntArray d' [label])) = inr out.
Proof.
  intros Hl.
  rewrite (apply_onehot_label self
             (PyArray (IntArray d [label - num_classes self]))
             d (label - num_classes self) eq_refl).
  rewrite (apply_onehot_label self (PyArray (IntArray d' [label])) d' label eq_refl).
  destruct (Z.leb_spec (num_classes self) (label - num_classes self)); [lia|].
  destruct (Z.leb_spec (num_classes self) label); [lia|].
  destruct (Z.eqb_spec (num_classes self) 0); [lia|].
  destruct (Z.ltb_spec (num_classes self) 0); [lia|].
  destruct (Z.ltb_spec (label - num_classes self) (- num_classes self)); [lia|].
  destruct (Z.ltb_spec label (- num_classes self)); [lia|].
  destruct (Z.leb_spec 0 (label - num_classes self)); [lia|].
  destruct (Z.leb_spec 0 label); [|lia].
  replace (num_classes self + (label - num_classes self)) with label by lia.
  split; [reflexivity | by eexists].
Qed.

Lemma negative_label_alias_witness :
  _apply_onehot (mkOnehot 3 0) (PyArray (IntArray int8 [1 - 3]))
    = _apply_onehot (mkOnehot 3 0) (PyArray (IntArray int64 [1])) ∧
  ∃ out, _apply_onehot (mkOnehot 3 0) (PyArray (IntArray int64 [1])) = inr out.
Proof. apply (negative_label_alias (mkOnehot 3 0) int8 int64 1). cbn. lia. Defined.

(** ** The entries as probabilities *)

Lemma Z2Qc_pos n : 0 < n → (0 < Z2Qc n)%Qc.
Proof.
  intros Hn. unfold Qclt, Z2Qc, Q2Qc. cbn [this]. rewrite !Qred_correct.
  unfold Qlt, inject_Z. cbn [Qnum Qden]. lia.
Qed.

Lemma Z2Qc_ge_1 n : 1 ≤ n → (1 ≤ Z2Qc n)%Qc.
Proof.
  intros Hn. unfold Qcle, Z2Qc, Q2Qc. cbn [this]. rewrite !Qred_correct.
  unfold Qle, inject_Z. cbn [Qnum Qden]. lia.
Qed.

Lemma Z2Qc_inv_bounds n : 1 ≤ n → (0 ≤ / Z2Qc n)%Qc ∧ (/ Z2Qc n ≤ 1)%Qc.
Proof.
  intros Hn. pose proof (Z2Qc_pos n ltac:(lia)) as Hpos. split.
  - by apply Qclt_le_weak, Qcinv_pos.
  - apply (Qcmult_lt_0_le_reg_r _ _ (Z2Qc n) Hpos).
    rewrite Qcmult_inv_l by (apply Z2Qc_neq_0; lia).
    rewrite Qcmult_1_l. by apply Z2Qc_ge_1.
Qed.

(** The entries of the vector of a label in range. *)
Lemma apply_onehot_in_range (self : Onehot) (data : label_data) d label :
  np_array data = IntArray d [label] →
  0 ≤ label < num_classes self →
  _apply_onehot self data =
    inr (NdArray (OtherT float32)
           (<[Z.to_nat label :=
                (1 - label_smoothing self
                 + label_smoothing self / Z2Qc (num_classes self))%Qc]>
              (replicate (Z.to_nat (num_classes self))
                 (label_smoothing self / Z2Qc (num_classes self))%Qc))).
Proof.
  intros Hd Hl. apply apply_onehot_inr. exists d, label.
  destruct (Z.leb_spec 0 label); [|lia]. repeat split; try done; lia.
Qed.

(** X8.  With a smoothing in [[0, 1]] every entry of the vector of a label in
    [[0, num_classes)] lies in [[0, 1]]. *)
Theorem entries_in_unit_interval (self : Onehot) (data : label_data) d label :
  np_array data = IntArray d [label] →
  0 ≤ label < num_classes self →
  (0 ≤ label_smoothing self)%Qc → (label_smoothing self ≤ 1)%Qc →
  ∃ out, _apply_onehot self data = inr out ∧
         Forall (λ v, (0 ≤ v)%Qc ∧ (v ≤ 1)%Qc) (nd_data out).
Proof.
  intros Hd Hl Hs0 Hs1. eexists. split; [by apply (apply_onehot_in_range self data d label)|].
  cbn [nd_data]. set (s := label_smoothing self) in *.
  destruct (Z2Qc_inv_bounds (num_classes self)) as [Hx0 Hx1]; [lia|].
  set (x := (/ Z2Qc (num_classes self))%Qc) in *.
  assert (Hfill : (0 ≤ s * x)%Qc ∧ (s * x ≤ 1)%Qc).
  { split; [by apply Qcmult_nonneg_nonneg|].
    apply Qcle_trans with (s * 1)%Qc; [by apply Qcmult_le_mono_nonneg_l|].
    by rewrite Qcmult_1_r. }
  pose proof (proj1 (Qcle_minus_iff _ _) Hs1) as Hs1'.
  pose proof (proj1 (Qcle_minus_iff _ _) Hx1) as Hx1'.
  apply Forall_insert; [apply Forall_replicate; exact Hfill|].
  unfold Qcdiv. fold x. split.
  - replace (1 - s + s * x)%Qc with ((1 + - s) + s * x)%Qc by ring.
    apply Qcplus_nonneg_nonneg; [done | apply Hfill].
  - apply (proj2 (Qcle_minus_iff _ _)).
    replace (1 + - (1 - s + s * x))%Qc with (s * (1 + - x))%Qc by ring.
    by apply Qcmult_nonneg_nonneg.
Qed.

Lemma entries_in_unit_interval_witness :
  ∃ out, _apply_onehot (mkOnehot 4 (Q2Qc (1 # 5))) (PyInt 2) = inr out ∧
         Forall (λ v, (0 ≤ v)%Qc ∧ (v ≤ 1)%Qc) (nd_data out).
Proof.
  apply (entries_in_unit_interval (mkOnehot 4 (Q2Qc (1 # 5))) (PyInt 2) int64 2).
  - reflexivity.
  - cbn. lia.
  - by_eval.
  - by_eval.
Defined.



End OnehotMore.

(* ===================================================================== *)
(** * Further properties of dice.py *)
(* ===================================================================== *)

Module DiceMore.
Import DiceTrace DiceProps.

(** ** Binarisation *)



(** X11.  Raising the threshold only clears items: an item that a trace with
    the higher threshold binarises to 1 is binarised to 1 by a trace with
    the lower threshold. *)
Theorem binarize_antitone (low high : Dice) (y_pred : tensor) i c j :
  (threshold low ≤ threshold high)%Qc →
  tensor_at (binarize high y_pred) i c j = Some 1%Qc →
  tensor_at (binarize low y_pred) i c j = Some 1%Qc.
Proof.
  intros Hle. rewrite !binarize_at.
  destruct (tensor_at y_pred i c j) as [v|]; [|done].
  cbn [fmap option_fmap option_map].
  destruct (decide (threshold high < v)%Qc) as [Hv|Hv].
  - intros _. rewrite bool_decide_eq_true_2; [done|].
    by apply Qcle_lt_trans with (threshold high).
  - rewrite (bool_decide_eq_false_2 _ Hv). intros H.
    apply (f_equal (λ o, bool_decide (o = Some 1%Qc))) in H.
    vm_compute in H. discriminate H.
Qed.

Lemma binarize_antitone_witness :
  tensor_at (binarize (__init__ "x" "x_pred" (Q2Qc (1 # 4)) false "Dice" true)
               TestDice.x_pred) 0 0 1 = Some 1%Qc.
Proof.
  apply (binarize_antitone
           (__init__ "x" "x_pred" (Q2Qc (1 # 4)) false "Dice" true)
           TestDice.dice TestDice.x_pred 0 0 1).
  - by_eval.
  - by_eval.
Defined.

(** ** The callbacks *)



(** X13.  A call of [on_batch_end] that returns changes the trace only by
    appending to the accumulator, whose earlier scores stay in place at its
    front, and changes the batch's [Data] only in the per-instance entry of
    the first output name: the tensors of the batch, the scalar log and the
    other per-instance entries are as before. *)
Theorem batch_end_frame (self self' : Dice) (data data' : Data) :
  on_batch_end self data = inr (self', data') →
  ∃ name scores,
    outputs self !! 0%nat = Some name ∧
    dice self' = dice self ++ scores ∧
    (inputs self', outputs self', threshold self', smooth self',
     channel_average self', per_ds self')
      = (inputs self, outputs self, threshold self, smooth self,
         channel_average self, per_ds self) ∧
    batch data' = batch data ∧ logs data' = logs data ∧
    per_instance_logs data' !! name = Some scores ∧
    ∀ k, k ≠ name → per_instance_logs data' !! k = per_instance_logs data !! k.
Proof.
  unfold on_batch_end.
  destruct (true_key self) as [e|k_true]; [discriminate|]. run.
  destruct (data_getitem data k_true) as [e|y_true]; [discriminate|]. run.
  destruct (pred_key self) as [e|k_pred]; [discriminate|]. run.
  destruct (data_getitem data k_pred) as [e|y_pred]; [discriminate|]. run.
  unfold py_index. destruct (outputs self !! 0%nat) as [name|] eqn:Ho;
    [|discriminate]. run.
  intros [= <- <-]. eexists name, _. split; [done|].
  cbn [set_dice dice inputs outputs threshold smooth channel_average per_ds
       write_per_instance_log batch logs per_instance_logs].
  repeat split; [apply lookup_insert_eq|].
  intros k Hk. by apply lookup_insert_ne.
Qed.

Lemma batch_end_frame_witness :
  ∃ name scores,
    outputs TestDice.dice !! 0%nat = Some name ∧
    dice (set_dice TestDice.dice [Fin (Q2Qc (2400000001 # 3200000001))])
      = dice TestDice.dice ++ scores ∧
    (inputs (set_dice TestDice.dice [Fin (Q2Qc (2400000001 # 3200000001))]),
     outputs (set_dice TestDice.dice [Fin (Q2Qc (2400000001 # 3200000001))]),
     threshold (set_dice TestDice.dice [Fin (Q2Qc (2400000001 # 3200000001))]),
     smooth (set_dice TestDice.dice [Fin (Q2Qc (2400000001 # 3200000001))]),
     channel_average
       (set_dice TestDice.dice [Fin (Q2Qc (2400000001 # 3200000001))]),
     per_ds (set_dice TestDice.dice [Fin (Q2Qc (2400000001 # 3200000001))]))
      = (inputs TestDice.dice, outputs TestDice.dice, threshold TestDice.dice,
         smooth TestDice.dice, channel_average TestDice.dice,
         per_ds TestDice.dice) ∧
    batch (write_per_instance_log TestDice.data "Dice"
             [Fin (Q2Qc (2400000001 # 3200000001))]) = batch TestDice.data ∧
    logs (write_per_instance_log TestDice.data "Dice"
            [Fin (Q2Qc (2400000001 # 3200000001))]) = logs TestDice.data ∧
    per_instance_logs (write_per_instance_log TestDice.data "Dice"
            [Fin (Q2Qc (2400000001 # 3200000001))]) !! name = Some scores ∧
    ∀ k, k ≠ name →
      per_instance_logs (write_per_instance_log TestDice.data "Dice"
            [Fin (Q2Qc (2400000001 # 3200000001))]) !! k
        = per_instance_logs TestDice.data !! k.
Proof.
  apply (batch_end_frame TestDice.dice _ TestDice.data _). by_eval.
Defined.

Lemma on_batch_end_set_dice (s s' : Dice) (b b' : Data) :
  on_batch_end s b = inr (s', b') → ∃ acc, s' = set_dice s acc.
Proof.
  unfold on_batch_end.
  destruct (true_key s) as [e|k_true]; [discriminate|]. run.
  destruct (data_getitem b k_true) as [e|y_true]; [discriminate|]. run.
  destruct (pred_key s) as [e|k_pred]; [discriminate|]. run.
  destruct (data_getitem b k_pred) as [e|y_pred]; [discriminate|]. run.
  destruct (py_index (outputs s) 0) as [e|name]; [discriminate|]. run.
  intros [= <- <-]. by eexists.
Qed.

Lemma run_batches_set_dice (bs : list Data) :
  ∀ (s s' : Dice) (bs' : list Data),
  run_batches s bs = inr (s', bs') → ∃ acc, s' = set_dice s acc.
Proof.
  induction bs as [|b bs IH]; intros s s' bs'; cbn [run_batches].
  - run. intros [= <- <-]. exists (dice s). by destruct s.
  - destruct (on_batch_end s b) as [e|[s1 b1]] eqn:Hb1; [discriminate|]. run.
    destruct (run_batches s1 bs) as [e|[s2 bs2]] eqn:Hbs; [discriminate|].
    run. intros [= <- <-].
    destruct (IH _ _ _ Hbs) as [acc2 ->].
    destruct (on_batch_end_set_dice _ _ _ _ Hb1) as [acc1 ->].
    by exists acc2.
Qed.

(** X14.  An epoch starts afresh.  When one epoch has run to its end, the
    next epoch run on the trace it left behaves as it would on the trace
    before the first: what the first epoch accumulated does not reach the
    second, neither its result nor its exception. *)
Theorem epochs_independent (self self1 : Dice)
    (begin1 end1 begin2 end2 : Data) (batches1 batches2 batches1' : list Data)
    (end1' : Data) :
  run_epoch self begin1 batches1 end1 = inr (self1, batches1', end1') →
  run_epoch self1 begin2 batches2 end2 = run_epoch self begin2 batches2 end2.
Proof.
  unfold run_epoch.
  destruct (run_batches (on_epoch_begin self begin1) batches1)
    as [e|[self1' bs1]] eqn:Hb; [discriminate|]. run.
  destruct (on_epoch_end self1' end1) as [e|d1] eqn:He; [discriminate|]. run.
  intros [= <- <- <-].
  destruct (run_batches_set_dice _ _ _ _ Hb) as [acc ->].
  reflexivity.
Qed.

Lemma epochs_independent_witness :
  run_epoch (on_epoch_begin (set_dice TestDice.dice [Fin (Q2Qc (3 # 4))])
               TestDice.data)
            TestDice.data [TestDice.data] TestDice.data
  = run_epoch (set_dice TestDice.dice [Fin (Q2Qc (3 # 4))])
              TestDice.data [TestDice.data] TestDice.data.
Proof.
  apply (epochs_independent (set_dice TestDice.dice [Fin (Q2Qc (3 # 4))])
           (on_epoch_begin (set_dice TestDice.dice [Fin (Q2Qc (3 # 4))])
              TestDice.data)
           TestDice.data TestDice.data TestDice.data TestDice.data
           [] [TestDice.data] []
           (write_with_log TestDice.data "Dice" (np_mean []))).
  reflexivity.
Defined.

End DiceMore.

(* ===================================================================== *)
(** * Further properties of _sparse_categorical_crossentropy.py *)
(* ===================================================================== *)

Module CrossEntropyMore.
Import CrossEntropy CrossEntropyProps.

(** ** The loop over the keys of the dict *)

Lemma masked_assign_swap (sw : list Qc) (y_true : list Z) k1 w1 k2 w2 :
  (k1 = k2 → w1 = w2) →
  masked_assign (masked_assign sw y_true k1 w1) y_true k2 w2
    = masked_assign (masked_assign sw y_true k2 w2) y_true k1 w1.
Proof.
  intros Hk. unfold masked_assign. revert sw.
  induction y_true as [|y y_true IH]; intros [|s sw]; cbn [zip_with]; try done.
  rewrite IH. f_equal.
  repeat case_bool_decide; try done. symmetry. apply Hk. congruence.
Qed.

(** The sample weights are the weights of the classes, 1.0 for a class the
    dict does not hold. *)
Lemma torch_weights_fmap (d : gmap Z Qc) (y_true : list Z) :
  weights_loop d y_true (dict_keys d) (replicate (length y_true) 1%Qc)
    = (λ y, default 1%Qc (d !! y)) <$> y_true.
Proof.
  apply list_eq. intros i. rewrite list_lookup_fmap.
  destruct (y_true !! i) as [y|] eqn:Hy; cbn.
  - by apply torch_sample_weights.
  - apply lookup_ge_None_2. rewrite weights_loop_length
      by by rewrite length_replicate.
    by apply lookup_ge_None_1.
Qed.

Lemma Forall_weaken {A : Type} (P Q : A → Prop) (l : list A) :
  Forall P l → (∀ x, P x → Q x) → Forall Q l.
Proof. induction 1; constructor; auto. Qed.

Lemma scale_ones (ce : list npfloat) (sw : list Qc) :
  length sw = length ce → Forall (λ w, w = 1%Qc) sw → scale ce sw = ce.
Proof.
  unfold scale. revert sw.
  induction ce as [|c ce IH]; intros [|w sw] Hl Hw; simplify_eq/=; [done|].
  inversion_clear Hw as [|? ? -> Hw']. by rewrite npf_mul_1_r, IH.
Qed.

Lemma scale_Fin (qs ws : list Qc) :
  scale (Fin <$> qs) ws = Fin <$> zip_with Qcmult qs ws.
Proof.
  unfold scale. revert ws.
  induction qs as [|q qs IH]; intros [|w ws]; cbn; [done..|]. by rewrite IH.
Qed.

(** X15.  The sample weights do not depend on the order in which the dict
    yields its keys: run over any rearrangement of a list of keys, the loop
    of the PyTorch path leaves the same weights. *)
Theorem weights_loop_order (d : gmap Z Qc) (y_true : list Z)
    (keys keys' : list Z) (sample_weights : list Qc) :
  keys ≡ₚ keys' →
  weights_loop d y_true keys sample_weights
    = weights_loop d y_true keys' sample_weights.
Proof.
  unfold weights_loop. intros Hp. revert sample_weights.
  induction Hp as [|k l l' _ IH|k1 k2 l|l l' l'' _ IH1 _ IH2];
    intros sw; cbn [foldl].
  - done.
  - apply IH.
  - f_equal. apply masked_assign_swap. by intros ->.
  - by rewrite IH1.
Qed.

Lemma weights_loop_order_witness :
  weights_loop DocExample.weights DocExample.y_true [1; 2] [1; 1; 1]%Qc
    = weights_loop DocExample.weights DocExample.y_true [2; 1] [1; 1; 1]%Qc.
Proof.
  apply (weights_loop_order DocExample.weights DocExample.y_true [1; 2] [2; 1]).
  apply perm_swap.
Defined.

Section More.

Variable tf_loss : bool → list Qc → Z → result npfloat.
Variable torch_ce : list Qc → Z → result npfloat.
Variable torch_nll : list npfloat → Z → result npfloat.
Variable torch_log : Qc → npfloat.

Local Abbreviation scce :=
  (sparse_categorical_crossentropy tf_loss torch_ce torch_nll torch_log).

(** X16.  The two type assertions come first and in their order: an
    argument [y_pred] that is no tensor raises the assertion about [y_pred]
    whatever [y_true] is, and with a tensor for [y_pred] an argument [y_true]
    that is no tensor raises the assertion about [y_true]; neither depends on
    the values, the flags or the weights. *)
Theorem type_assertions y_pred y_true from_logits average_loss class_weights :
  scce NotTensor y_true from_logits average_loss class_weights
    = inl (AssertionError (Some msg_pred)) ∧
  (isinstance_tensor y_pred = true →
   scce y_pred NotTensor from_logits average_loss class_weights
     = inl (AssertionError (Some msg_true))).
Proof.
  split; [reflexivity|]. by destruct y_pred.
Qed.

(** X17.  On the PyTorch path a dict of weights neither causes nor hides an
    exception: the call with the dict raises exactly the exceptions the call
    without weights raises. *)
Theorem weights_keep_exceptions pred y_true from_logits average_loss e
    (d : gmap Z Qc) :
  scce (TorchTensor pred) (TorchTensor y_true) from_logits average_loss
       (Some (PyDict d)) = inl e
  ↔ scce (TorchTensor pred) (TorchTensor y_true) from_logits average_loss
         None = inl e.
Proof.
  rewrite !scce_torch.
  by destruct from_logits;
    [destruct (on_batch torch_ce pred y_true)
    |destruct (on_batch torch_nll (map (map torch_log) pred) y_true)].
Qed.

(** X18.  Weights of the other path's kind are an error of their own, met
    only after the losses were computed: when the call without weights
    returns, the TensorFlow path given a dict, which has no [lookup], and the
    PyTorch path given a hash table, which has no [keys], raise an
    AttributeError. *)
Theorem wrong_weights_container pred y_true from_logits average_loss l :
  (scce (TfTensor pred) (TfTensor y_true) from_logits average_loss None = inr l →
   ∀ d : gmap Z Qc,
     scce (TfTensor pred) (TfTensor y_true) from_logits average_loss
          (Some (PyDict d)) = inl AttributeError) ∧
  (scce (TorchTensor pred) (TorchTensor y_true) from_logits average_loss None
     = inr l →
   ∀ key_dtype (table : gmap Z Qc) default_value,
     scce (TorchTensor pred) (TorchTensor y_true) from_logits average_loss
          (Some (StaticHashTable key_dtype table default_value))
       = inl AttributeError).
Proof.
  split.
  - rewrite scce_tf. intros H d. rewrite scce_tf.
    by destruct (on_batch (tf_loss from_logits) pred y_true).
  - rewrite scce_torch. intros H kd table dv. rewrite scce_torch.
    by destruct from_logits;
      [destruct (on_batch torch_ce pred y_true)
      |destruct (on_batch torch_nll (map (map torch_log) pred) y_true)].
Qed.

(** The PyTorch path with a dict, in one equation. *)
Lemma scce_torch_dict pred y_true from_logits average_loss (d : gmap Z Qc) :
  scce (TorchTensor pred) (TorchTensor y_true) from_logits average_loss
       (Some (PyDict d)) =
    ce ← (if from_logits then on_batch torch_ce pred y_true
          else on_batch torch_nll (map (map torch_log) pred) y_true);
    let ce := scale ce ((λ y, default 1%Qc (d !! y)) <$> y_true) in
    mret (if average_loss then Scalar (reduce_mean ce) else PerSample ce).
Proof.
  rewrite scce_torch, torch_weights_fmap.
  by destruct from_logits;
    [destruct (on_batch torch_ce pred y_true)
    |destruct (on_batch torch_nll (map (map torch_log) pred) y_true)].
Qed.

(** The unweighted losses of a call that returns, one per label. *)
Lemma scce_torch_none_inr pred y_true from_logits ce :
  scce (TorchTensor pred) (TorchTensor y_true) from_logits false None
    = inr (PerSample ce) →
  (if from_logits then on_batch torch_ce pred y_true
   else on_batch torch_nll (map (map torch_log) pred) y_true) = inr ce ∧
  length y_true = length ce.
Proof.
  rewrite scce_torch.
  destruct from_logits;
    [destruct (on_batch torch_ce pred y_true) as [e|ce0] eqn:Hce
    |destruct (on_batch torch_nll (map (map torch_log) pred) y_true)
       as [e|ce0] eqn:Hce]; run; try discriminate;
    intros [= ->]; (split; [done|]);
    apply on_batch_length in Hce; rewrite ?length_map in Hce; lia.
Qed.

(** X19.  The averaged weighted loss is the sum of the weighted losses over
    the number of samples, not over the sum of the weights: for finite
    per-sample losses q1..qn of labels y1..yn, n >= 1, the PyTorch path with a
    dict [d] and [average_loss] returns (q1 * w(y1) + ... + qn * w(yn)) / n,
    where w(y) is [d[y]], or 1.0 for a class the dict does not hold. *)
Theorem weighted_mean_unnormalised pred y_true from_logits (qs : list Qc)
    (d : gmap Z Qc) :
  scce (TorchTensor pred) (TorchTensor y_true) from_logits false None
    = inr (PerSample (Fin <$> qs)) →
  qs ≠ [] →
  scce (TorchTensor pred) (TorchTensor y_true) from_logits true (Some (PyDict d))
    = inr (Scalar (Fin
        (np_sum (zip_with (λ q y, q * default 1%Qc (d !! y))%Qc qs y_true)
         / Z2Qc (Z.of_nat (length qs)))%Qc)).
Proof.
  intros [Hce Hlen]%scce_torch_none_inr Hne.
  rewrite scce_torch_dict, Hce. run. cbn zeta.
  rewrite length_fmap in Hlen.
  rewrite scale_Fin. unfold reduce_mean. rewrite np_mean_Fin.
  2:{ destruct qs, y_true; done. }
  rewrite zip_with_fmap_r, length_zip_with, Nat.min_l by lia. reflexivity.
Qed.

(** X20.  On the PyTorch path a dict none of whose keys is a label of the
    batch changes nothing: the call returns what the call without weights
    returns, averaged or not. *)
Theorem unused_weights pred y_true from_logits average_loss ce (d : gmap Z Qc) :
  scce (TorchTensor pred) (TorchTensor y_true) from_logits false None
    = inr (PerSample ce) →
  Forall (λ y, d !! y = None) y_true →
  scce (TorchTensor pred) (TorchTensor y_true) from_logits average_loss
       (Some (PyDict d))
  = scce (TorchTensor pred) (TorchTensor y_true) from_logits average_loss None.
Proof.
  intros [Hce Hlen]%scce_torch_none_inr Hd.
  rewrite scce_torch_dict, scce_torch, Hce. run. cbn zeta.
  rewrite scale_ones; [done | by rewrite length_fmap |].
  apply Forall_fmap. apply (Forall_weaken _ _ _ Hd).
  intros y Hy. cbn. by rewrite Hy.
Qed.

End More.

Lemma type_assertions_witness :
  DocExample.scce (TorchTensor DocExample.y_pred) NotTensor false true None
    = inl (AssertionError (Some msg_true)).
Proof.
  apply (proj2 (type_assertions DocExample.tf_loss DocExample.torch_ce
                  DocExample.torch_nll DocExample.torch_log
                  (TorchTensor DocExample.y_pred) NotTensor false true None)).
  reflexivity.
Defined.

Lemma weights_keep_exceptions_witness :
  DocExample.scce (TorchTensor DocExample.y_pred) (TorchTensor [1; 0; 7])
    false true None = inl IndexError.
Proof.
  apply (proj1 (weights_keep_exceptions DocExample.tf_loss DocExample.torch_ce
                  DocExample.torch_nll DocExample.torch_log
                  DocExample.y_pred [1; 0; 7] false true IndexError
                  DocExample.weights)).
  by_eval.
Defined.

Lemma wrong_weights_container_witness :
  DocExample.scce (TfTensor DocExample.y_pred) (TfTensor DocExample.y_true)
    false false (Some (PyDict DocExample.weights)) = inl AttributeError.
Proof.
  refine (proj1 (wrong_weights_container DocExample.tf_loss DocExample.torch_ce
                   DocExample.torch_nll DocExample.torch_log
                   DocExample.y_pred DocExample.y_true false false
                   (PerSample [Fin (Q2Qc (22 # 100)); Fin (Q2Qc (11 # 100));
                               Fin (Q2Qc (36 # 100))])) _ DocExample.weights).
  by_eval.
Defined.

Lemma weighted_mean_unnormalised_witness :
  DocExample.scce (TorchTensor DocExample.y_pred) (TorchTensor DocExample.y_true)
    false true (Some (PyDict DocExample.weights))
  = inr (Scalar (Fin
      (np_sum (zip_with (λ q y, q * default 1%Qc (DocExample.weights !! y))%Qc
                 [Q2Qc (22 # 100); Q2Qc (11 # 100); Q2Qc (36 # 100)]
                 DocExample.y_true)
       / Z2Qc (Z.of_nat 3))%Qc)).
Proof.
  apply (weighted_mean_unnormalised DocExample.tf_loss DocExample.torch_ce
           DocExample.torch_nll DocExample.torch_log
           DocExample.y_pred DocExample.y_true false
           [Q2Qc (22 # 100); Q2Qc (11 # 100); Q2Qc (36 # 100)]
           DocExample.weights).
  - by_eval.
  - discriminate.
Defined.

Lemma unused_weights_witness :
  DocExample.scce (TorchTensor DocExample.y_pred) (TorchTensor DocExample.y_true)
    false true (Some (PyDict (<[5 := Q2Qc 2]> ∅)))
  = DocExample.scce (TorchTensor DocExample.y_pred)
      (TorchTensor DocExample.y_true) false true None.
Proof.
  apply (unused_weights DocExample.tf_loss DocExample.torch_ce
           DocExample.torch_nll DocExample.torch_log
           DocExample.y_pred DocExample.y_true false true
           [Fin (Q2Qc (22 # 100)); Fin (Q2Qc (11 # 100)); Fin (Q2Qc (36 # 100))]
           (<[5 := Q2Qc 2]> ∅)).
  - by_eval.
  - by_eval.
Defined.

End CrossEntropyMore.
